(** * pyteamcity: the locator / query-set layer

    A shallow embedding of [pyteamcity/core/queryset.py], of the
    [ProjectQuerySet] subclass and the [Project] entity of
    [pyteamcity/project.py], and of the URL set-up of
    [pyteamcity/teamcity.py].

    Python objects decoded from JSON are values of [PyVal]; exceptions are
    the constructors of [Exception]; a method of a query set is a
    computation in the state-and-exception monad [QuerySet.M], whose state
    holds the (mutable) query set object and the log of the GET requests
    issued so far.  A raised exception keeps the state reached at the
    raise, as assignments to [self] survive a Python exception. *)

From Stdlib Require Import String Ascii ZArith List Bool Lia DecimalString.
Import ListNotations.
Open Scope string_scope.
Open Scope Z_scope.

Set Warnings "-register-all".

(** ** Python values and exceptions *)

(** What [json.loads] can produce.  Numbers are restricted to integers.  A
    [PyDict] lists the items of the decoded dict, whose keys are distinct. *)
Inductive PyVal : Type :=
| PyNone
| PyBool (b : bool)
| PyInt (n : Z)
| PyStr (s : string)
| PyList (items : list PyVal)
| PyDict (fields : list (string * PyVal)).

Inductive Exception : Type :=
| UnauthorizedError (status_code : Z) (reason text : string)
| HTTPError (status_code : Z) (reason text : string)
| MultipleObjectsReturned
| KeyError (key : string)
| TypeError
| AttributeError
| ValueError
| OverflowError
| StopIteration
| JSONDecodeError.

Inductive result (A : Type) : Type :=
| Ok (a : A)
| Raise (e : Exception).
Arguments Ok {A} a.
Arguments Raise {A} e.

(** [sys.maxsize] of a 64-bit CPython. *)
Definition sys_maxsize : Z := 2 ^ 63 - 1.

(** Truth value of an object, as tested by [not x]. *)
Definition truthy (v : PyVal) : bool :=
  match v with
  | PyNone => false
  | PyBool b => b
  | PyInt n => negb (n =? 0)
  | PyStr s => negb (s =? EmptyString)%string
  | PyList items => match items with [] => false | _ :: _ => true end
  | PyDict fields => match fields with [] => false | _ :: _ => true end
  end.

Definition str_truthy (s : string) : bool := negb (s =? EmptyString)%string.

Fixpoint dict_lookup (key : string) (fields : list (string * PyVal)) : option PyVal :=
  match fields with
  | [] => None
  | (k, v) :: rest => if (k =? key)%string then Some v else dict_lookup key rest
  end.

(** [v[key]] for a string key: only a dict can be subscripted by a string. *)
Definition subscript (v : PyVal) (key : string) : result PyVal :=
  match v with
  | PyDict fields =>
      match dict_lookup key fields with
      | Some x => Ok x
      | None => Raise (KeyError key)
      end
  | _ => Raise TypeError
  end.

(** [v.get(key)]: of the decoded values only a dict has a [get] method. *)
Definition dict_get (v : PyVal) (key : string) : result PyVal :=
  match v with
  | PyDict fields =>
      Ok (match dict_lookup key fields with Some x => x | None => PyNone end)
  | _ => Raise AttributeError
  end.

(** The items [iter(v)] goes through: the elements of a list, the keys of a
    dict, the characters of a string. *)
Definition py_iter (v : PyVal) : result (list PyVal) :=
  match v with
  | PyList items => Ok items
  | PyDict fields => Ok (map (fun kv => PyStr (fst kv)) fields)
  | PyStr s => Ok (map (fun c => PyStr (String c EmptyString)) (list_ascii_of_string s))
  | _ => Raise TypeError
  end.

(** What the builtin [len] makes of the value returned by [__len__]. *)
Definition len_protocol (v : PyVal) : result Z :=
  match v with
  | PyInt n =>
      if n <? 0 then Raise ValueError
      else if n >? sys_maxsize then Raise OverflowError
      else Ok n
  | PyBool b => Ok (if b then 1 else 0)
  | _ => Raise TypeError
  end.

Definition is_dict (v : PyVal) : bool :=
  match v with PyDict _ => true | _ => false end.

Definition string_of_Z (z : Z) : string := NilZero.string_of_int (Z.to_int z).

(** ** The transport capability *)

(** A [requests.Response] as the query set uses it: the two attributes it
    reads and the two methods it calls.  [raise_for_status] is [Some msg]
    when the call raises [requests.HTTPError] with message [msg] (whose
    [response] is this response), [json] is [None] when decoding raises. *)
Module Response.
Record t : Type := mk {
  status_code : Z;
  text : string;
  raise_for_status : option string;
  json : option PyVal
}.

(** A response as [requests] makes it: [raise_for_status] raises, with the
    message [msg], exactly for the statuses from 400 to 599. *)
Definition of_requests (status : Z) (msg text : string) (body : option PyVal) : t :=
  mk status text (if (400 <=? status) && (status <? 600) then Some msg else None) body.

End Response.

(** A session answers a GET from the requests already served and the URL. *)
Module Session.
Record t : Type := mk {
  get : list string -> string -> Response.t
}.
End Session.

(** ** Locator *)

Module Locator.

(** Modelled from the spec: the module [pyteamcity/core/locator.py] (class
    [Locator], used by the query set through [add_pred] and [str]) is
    missing.  The spec: it holds an ordered sequence of (name, string-value)
    pairs; [add_predicate] appends a predicate; [render] produces
    [name1:value1,name2:value2,...] in insertion order, and the empty string
    if no predicate was added. *)
Record t : Type := mk { predicates : list (string * string) }.

Definition empty : t := mk [].

Definition add_predicate (name value : string) (l : t) : t :=
  mk (predicates l ++ [(name, value)])%list.

Definition predicate_str (p : string * string) : string :=
  fst p ++ ":" ++ snd p.

Fixpoint join_predicates (ps : list (string * string)) : string :=
  match ps with
  | [] => EmptyString
  | [p] => predicate_str p
  | p :: rest => predicate_str p ++ "," ++ join_predicates rest
  end.

Definition render (l : t) : string := join_predicates (predicates l).

(** A sequence of [add_predicate] calls, given by their arguments. *)
Definition add_all (calls : list (string * string)) (l : t) : t :=
  fold_left (fun acc c => add_predicate (fst c) (snd c) acc) calls l.

End Locator.

(** ** TeamCity: the connection *)

Module TeamCity.

Record t : Type := mk {
  username : option string;
  password : option string;
  protocol : string;
  server : string;
  port : Z;
  session : Session.t;
  base_base_url : string;
  base_url : string;
  auth : option (string * string)
}.

Definition opt_truthy (s : option string) : bool :=
  match s with Some x => str_truthy x | None => false end.

(** [TeamCity.__init__], without the managers. *)
Definition __init__ (username password : option string) (protocol server : string)
    (port : option Z) (session : Session.t) : t :=
  let default := if (protocol =? "https")%string then 443 else 80 in
  let port' :=
    match port with
    | Some p => if p =? 0 then default else p
    | None => default
    end in
  let u0 := protocol ++ "://" ++ server in
  let u1 :=
    if (protocol =? "http")%string && negb (port' =? 80)
    then u0 ++ ":" ++ string_of_Z port' else u0 in
  let u2 :=
    if (protocol =? "https")%string && negb (port' =? 443)
    then u1 ++ ":" ++ string_of_Z port' else u1 in
  if opt_truthy username && opt_truthy password
  then mk username password protocol server port' session u2 (u2 ++ "/httpAuth")
         (match username, password with
          | Some u, Some p => Some (u, p)
          | _, _ => None
          end)
  else mk username password protocol server port' session u2 (u2 ++ "/guestAuth") None.

End TeamCity.

(** ** QuerySet: the generic engine *)

Module QuerySet.

(** The attributes of a query set.  [url] is only set by [_fetch]. *)
Record t : Type := mk {
  teamcity : TeamCity.t;
  base_url : string;
  _locator : Locator.t;
  _data_dict : PyVal;
  url : option string
}.

(** The state a method runs in: the object and the GETs issued so far,
    oldest first. *)
Record State : Type := mkState {
  self : t;
  requests : list string
}.

Definition M (A : Type) : Type := State -> result A * State.

Definition ret {A} (a : A) : M A := fun st => (Ok a, st).

Definition raise {A} (e : Exception) : M A := fun st => (Raise e, st).

Definition lift {A} (r : result A) : M A := fun st => (r, st).

Definition bind {A B} (m : M A) (k : A -> M B) : M B :=
  fun st =>
    match m st with
    | (Ok a, st') => k a st'
    | (Raise e, st') => (Raise e, st')
    end.

(** [try: m  except: h], the handler choosing what it catches. *)
Definition try_except {A} (m : M A) (h : Exception -> M A) : M A :=
  fun st =>
    match m st with
    | (Ok a, st') => (Ok a, st')
    | (Raise e, st') => h e st'
    end.

Notation "x <- m ;; k" := (bind m (fun x => k))
  (at level 61, m at next level, right associativity).
Notation "m ;;; k" := (bind m (fun _ => k))
  (at level 61, right associativity).

Definition read_self : M t := fun st => (Ok (self st), st).

(** Assignments to one attribute of the object. *)
Definition with_locator (q : t) (l : Locator.t) : t :=
  mk (teamcity q) (base_url q) l (_data_dict q) (url q).

Definition with_data_dict (q : t) (d : PyVal) : t :=
  mk (teamcity q) (base_url q) (_locator q) d (url q).

Definition with_url (q : t) (u : string) : t :=
  mk (teamcity q) (base_url q) (_locator q) (_data_dict q) (Some u).

Definition set_locator (l : Locator.t) : M unit :=
  fun st => (Ok tt, mkState (with_locator (self st) l) (requests st)).

Definition set_data_dict (d : PyVal) : M unit :=
  fun st => (Ok tt, mkState (with_data_dict (self st) d) (requests st)).

Definition set_url (u : string) : M unit :=
  fun st => (Ok tt, mkState (with_url (self st) u) (requests st)).

(** [self.teamcity.session.get(u)]: the request is logged and answered. *)
Definition session_get (u : string) : M Response.t :=
  fun st =>
    (Ok (Session.get (TeamCity.session (teamcity (self st))) (requests st) u),
     mkState (self st) (requests st ++ [u])%list).

(** [QuerySet.__init__] for a subclass whose class attribute [uri] is [uri]. *)
Definition __init__ (uri : string) (tc : TeamCity.t) : t :=
  mk tc (TeamCity.base_url tc ++ uri) Locator.empty (PyDict []) None.

Definition _add_pred (name value : string) : M unit :=
  q <- read_self ;;
  set_locator (Locator.add_predicate name value (_locator q)).

Definition _get_url (details : bool) (href : option string) : M string :=
  q <- read_self ;;
  match href with
  | Some h => ret ("http://" ++ TeamCity.server (teamcity q) ++ h)
  | None =>
      let url := base_url q in
      let locator_str := Locator.render (_locator q) in
      if str_truthy locator_str
      then if details then ret (url ++ locator_str)
           else ret (url ++ "?locator=" ++ locator_str)
      else ret url
  end.

Definition _fetch (details : bool) (href : option string) : M PyVal :=
  u <- _get_url details href ;;
  set_url u ;;;
  res <- session_get u ;;
  match Response.raise_for_status res with
  | Some reason =>
      let status_code := Response.status_code res in
      if status_code =? 401
      then raise (UnauthorizedError status_code reason (Response.text res))
      else raise (HTTPError status_code reason (Response.text res))
  | None =>
      match Response.json res with
      | Some data => ret data
      | None => raise JSONDecodeError
      end
  end.

(** The URL [_get_url] computes, as a function of the object. *)
Definition url_for (details : bool) (href : option string) (q : t) : string :=
  match href with
  | Some h => "http://" ++ TeamCity.server (teamcity q) ++ h
  | None =>
      if str_truthy (Locator.render (_locator q))
      then if details then base_url q ++ Locator.render (_locator q)
           else base_url q ++ "?locator=" ++ Locator.render (_locator q)
      else base_url q
  end.

(** What [_fetch] makes of the response it got. *)
Definition response_outcome (res : Response.t) : result PyVal :=
  match Response.raise_for_status res with
  | Some reason =>
      if Response.status_code res =? 401
      then Raise (UnauthorizedError (Response.status_code res) reason (Response.text res))
      else Raise (HTTPError (Response.status_code res) reason (Response.text res))
  | None =>
      match Response.json res with
      | Some data => Ok data
      | None => Raise JSONDecodeError
      end
  end.

(** The response the session gives to the next GET of [u]. *)
Definition answer (st : State) (u : string) : Response.t :=
  Session.get (TeamCity.session (teamcity (self st))) (requests st) u.

Definition _data (details : bool) (href : option string) : M PyVal :=
  q <- read_self ;;
  (if negb (truthy (_data_dict q))
   then d <- _fetch details href ;; set_data_dict d
   else ret tt) ;;;
  q' <- read_self ;;
  ret (_data_dict q').

Definition __len__ : M PyVal :=
  data <- _data false None ;;
  lift (subscript data "count").

(** [len(self)]: the builtin around [__len__]. *)
Definition len : M Z :=
  v <- __len__ ;;
  lift (len_protocol v).

(** [next(itertools.islice(g, index, index + 1))] on a generator [g] whose
    items are produced one by one: the items before [index] are produced and
    dropped, a raising item ends the walk, exhaustion is [StopIteration]. *)
Fixpoint islice_next {A} (g : list (result A)) (index : nat) : result A :=
  match g with
  | [] => Raise StopIteration
  | Raise e :: _ => Raise e
  | Ok a :: rest =>
      match index with
      | O => Ok a
      | S index' => islice_next rest index'
      end
  end.

(** [next(g)] on a generator that has not been advanced yet. *)
Definition generator_next {A} (g : list (result A)) : result A :=
  match g with
  | [] => Raise StopIteration
  | r :: _ => r
  end.

(** What a [for] loop over the generator goes through: the items in order,
    up to the first one that raises. *)
Fixpoint for_each {A} (g : list (result A)) : result (list A) :=
  match g with
  | [] => Ok []
  | Raise e :: _ => Raise e
  | Ok a :: rest =>
      match for_each rest with
      | Ok l => Ok (a :: l)
      | Raise e => Raise e
      end
  end.

(** [itertools.islice] checks its bounds before it asks for the iterator. *)
Definition islice_bounds (start stop : Z) : M unit :=
  if (start <? 0) || (stop >? sys_maxsize) then raise ValueError else ret tt.

(** The arguments [islice(it, start, stop, step)] accepts: [None] or an
    integer from 0 to [sys.maxsize] for [start] and [stop], [None] or an
    integer from 1 to [sys.maxsize] for [step]. *)
Definition islice_accepts (start stop step : option Z) : bool :=
  (match start with Some a => (0 <=? a) && (a <=? sys_maxsize) | None => true end)
  && (match stop with Some b => (0 <=? b) && (b <=? sys_maxsize) | None => true end)
  && (match step with Some c => (1 <=? c) && (c <=? sys_maxsize) | None => true end).

(** [list(itertools.islice(g, start, stop, step))], with [cnt] items of [g]
    already taken and [next] the position of the next item to yield: items
    before [next] are produced and dropped, the walk ends without producing
    the item at [next] when [stop] is reached, and after a yield [next]
    moves on by [step], but not beyond [stop]. *)
Fixpoint islice_walk {A} (g : list (result A)) (cnt next : nat) (stop : option nat)
    (step : nat) : result (list A) :=
  match g with
  | [] => Ok []
  | r :: rest =>
      if (cnt <? next)%nat
      then match r with
           | Raise e => Raise e
           | Ok _ => islice_walk rest (S cnt) next stop step
           end
      else if match stop with Some s => (s <=? cnt)%nat | None => false end
      then Ok []
      else match r with
           | Raise e => Raise e
           | Ok a =>
               let next' :=
                 match stop with
                 | Some s => Nat.min (next + step) s
                 | None => (next + step)%nat
                 end in
               match islice_walk rest (S cnt) next' stop step with
               | Ok l => Ok (a :: l)
               | Raise e => Raise e
               end
           end
  end.

Section Subclass.

(** What a concrete query set supplies: its entity class, the criteria
    [filter] takes, [filter] itself, [_entity_factory.from_dict] and
    [__iter__] (a generator, given by the items it will produce). *)
Variable Entity : Type.
Variable Criteria : Type.
Variable filter : Criteria -> M unit.
Variable from_dict : PyVal -> t -> result Entity.
Variable __iter__ : M (list (result Entity)).

Definition _from_dict (d : PyVal) (query_set : t) : result Entity :=
  from_dict d query_set.

(** [get] returns the URL (left) or the entity (right). *)
Definition get (just_url raise_multiple_objects_returned : bool) (kwargs : Criteria)
    : M (string + Entity) :=
  filter kwargs ;;;
  (if raise_multiple_objects_returned
   then n <- len ;;
        if n >? 1 then raise MultipleObjectsReturned else ret tt
   else ret tt) ;;;
  set_data_dict PyNone ;;;
  if just_url
  then u <- _get_url true None ;; ret (inl u)
  else d <- _data true None ;;
       q <- read_self ;;
       e <- lift (_from_dict d q) ;;
       ret (inr e).

(** [__getitem__] at a single integer index.  A [TypeError] raised in the
    [try] body reaches the [except] clause, whose [index.start] fails on an
    integer.  (Slice objects are not modelled.) *)
Definition __getitem__ (index : Z) : M Entity :=
  try_except
    (islice_bounds index (index + 1) ;;;
     g <- __iter__ ;;
     lift (islice_next g (Z.to_nat index)))
    (fun e =>
       match e with
       | TypeError => raise AttributeError
       | _ => raise e
       end).

(** [__getitem__] at a slice object [slice(start, stop, step)] of integers
    and [None]s: [index + 1] raises [TypeError] before anything else is done,
    and the [except] clause builds the list. *)
Definition getitem_slice (start stop step : option Z) : M (list Entity) :=
  if islice_accepts start stop step
  then g <- __iter__ ;;
       lift (islice_walk g 0
               (match start with Some a => Z.to_nat a | None => 0%nat end)
               (match stop with Some b => Some (Z.to_nat b) | None => None end)
               (match step with Some c => Z.to_nat c | None => 1%nat end))
  else raise ValueError.

(** [__next__]: [next] of a generator made for this call. *)
Definition __next__ : M Entity :=
  g <- __iter__ ;;
  lift (generator_next g).

End Subclass.

End QuerySet.

(** ** Project and ProjectQuerySet *)

Module Project.

(** A project entity.  The back-reference [project_query_set] aliases the
    mutable query set that produced the entity; nothing below reads through
    it, so the record keeps only what [__init__] takes from it. *)
Record t : Type := mk {
  id : PyVal;
  name : PyVal;
  description : PyVal;
  href : PyVal;
  web_url : PyVal;
  parent_project_id : PyVal;
  teamcity : option TeamCity.t;
  _data_dict : PyVal
}.

Definition __init__ (id name description href web_url parent_project_id : PyVal)
    (teamcity : option TeamCity.t) (project_query_set : option QuerySet.t)
    (data_dict : PyVal) : t :=
  let teamcity' :=
    match teamcity, project_query_set with
    | None, Some q => Some (QuerySet.teamcity q)
    | _, _ => teamcity
    end in
  mk id name description href web_url parent_project_id teamcity' data_dict.

Definition from_dict (d : PyVal) (project_query_set : option QuerySet.t)
    (teamcity : option TeamCity.t) : result t :=
  match dict_get d "id" with Raise e => Raise e | Ok id =>
  match dict_get d "name" with Raise e => Raise e | Ok name =>
  match dict_get d "description" with Raise e => Raise e | Ok description =>
  match dict_get d "href" with Raise e => Raise e | Ok href =>
  match dict_get d "webUrl" with Raise e => Raise e | Ok web_url =>
  match dict_get d "parentProjectId" with Raise e => Raise e | Ok parent_project_id =>
    Ok (__init__ id name description href web_url parent_project_id
          teamcity project_query_set d)
  end end end end end end.

End Project.

Module ProjectQuerySet.

Import QuerySet.

Definition uri : string := "/app/rest/projects/".

(** The keyword arguments [filter] accepts. *)
Record Criteria : Type := mkCriteria {
  id : option string;
  name : option string
}.

(** A call without keyword arguments. *)
Definition no_criteria : Criteria := mkCriteria None None.

Definition __init__ (tc : TeamCity.t) : QuerySet.t := QuerySet.__init__ uri tc.

Definition filter (kwargs : Criteria) : M unit :=
  (match id kwargs with
   | Some v => _add_pred "id" v
   | None => ret tt
   end) ;;;
  (match name kwargs with
   | Some v => _add_pred "name" v
   | None => ret tt
   end).

(** The locator [filter kwargs] leaves behind, as a function of the one it
    finds. *)
Definition filtered (kwargs : Criteria) (l : Locator.t) : Locator.t :=
  let l1 := match id kwargs with
            | Some v => Locator.add_predicate "id" v l
            | None => l
            end in
  match name kwargs with
  | Some v => Locator.add_predicate "name" v l1
  | None => l1
  end.

Definition entity_from_dict (d : PyVal) (query_set : QuerySet.t) : result Project.t :=
  Project.from_dict d (Some query_set) None.

(** The generator expression of [__iter__]: its iterable is evaluated when
    the generator is made, its items when they are asked for. *)
Definition __iter__ : M (list (result Project.t)) :=
  data <- _data false None ;;
  items <- lift (subscript data "project") ;;
  ds <- lift (py_iter items) ;;
  q <- read_self ;;
  ret (map (fun d => entity_from_dict d q) ds).

(** The detail fetch that ends [get] when [just_url] is false. *)
Definition detail_fetch : M (string + Project.t) :=
  d <- _data true None ;;
  q <- read_self ;;
  e <- lift (entity_from_dict d q) ;;
  ret (inr e).

Definition get (just_url raise_multiple_objects_returned : bool) (kwargs : Criteria)
    : M (string + Project.t) :=
  QuerySet.get Project.t Criteria filter entity_from_dict
    just_url raise_multiple_objects_returned kwargs.

Definition __getitem__ (index : Z) : M Project.t :=
  QuerySet.__getitem__ Project.t __iter__ index.

Definition getitem_slice (start stop step : option Z) : M (list Project.t) :=
  QuerySet.getitem_slice Project.t __iter__ start stop step.

Definition __next__ : M Project.t :=
  QuerySet.__next__ Project.t __iter__.

End ProjectQuerySet.

(** ** Manager *)

Module Manager.

Record t : Type := mk {
  teamcity : TeamCity.t;
  query_set_factory : TeamCity.t -> QuerySet.t
}.

Definition __init__ (teamcity : TeamCity.t) (query_set_factory : TeamCity.t -> QuerySet.t)
    : t :=
  mk teamcity query_set_factory.

Definition all (self : t) : QuerySet.t :=
  query_set_factory self (teamcity self).

(** The attribute [projects] that [TeamCity.__init__] sets on the connection. *)
Definition projects (tc : TeamCity.t) : t := __init__ tc ProjectQuerySet.__init__.

End Manager.

(** ** Navigation from a project *)

Module ProjectLinks.

(** The property [Project.projects].  The back-reference
    [self.project_query_set], which the record [Project.t] does not keep, is
    passed along; it is [None] for a project made without a query set. *)
Definition projects (project_query_set : option QuerySet.t) (self : Project.t)
    : result QuerySet.t :=
  match project_query_set with
  | None => Raise AttributeError
  | Some owner =>
      let teamcity := QuerySet.teamcity owner in
      let sub := ProjectQuerySet.__init__ teamcity in
      match subscript (Project._data_dict self) "projects" with
      | Ok d => Ok (QuerySet.with_data_dict sub d)
      | Raise e => Raise e
      end
  end.

End ProjectLinks.

(** ** Sample connections, for evaluating the model *)

Module Samples.

Import QuerySet.

Definition two_projects : PyVal :=
  PyDict [("count", PyInt 2);
          ("project", PyList [PyDict [("id", PyStr "A")]; PyDict [("id", PyStr "B")]])].

Definition one_project : PyVal :=
  PyDict [("count", PyInt 1); ("project", PyList [PyDict [("id", PyStr "A")]])].

(** A collection whose second item is not a dict and whose count is off. *)
Definition ragged_projects : PyVal :=
  PyDict [("count", PyInt 7);
          ("project", PyList [PyDict [("id", PyStr "A")]; PyInt 7; PyDict [("id", PyStr "B")]])].

(** A detail payload with nested sub-projects. *)
Definition parent_detail : PyVal :=
  PyDict [("id", PyStr "P");
          ("projects", PyDict [("count", PyInt 1);
                               ("project", PyList [PyDict [("id", PyStr "C")]])])].

(** A server that answers every GET with status 200 and the same body. *)
Definition serving (body : PyVal) : Session.t :=
  Session.mk (fun _ _ => Response.mk 200 EmptyString None (Some body)).

(** A server that answers every GET with the same response. *)
Definition answering (res : Response.t) : Session.t :=
  Session.mk (fun _ _ => res).

(** A server that rejects every GET with the given status and body text. *)
Definition rejecting (status : Z) (body : string) : Session.t :=
  Session.mk (fun _ _ => Response.mk status body (Some "error") None).

Definition guest (s : Session.t) : TeamCity.t :=
  TeamCity.__init__ None None "http" "tc" None s.

Definition secure (s : Session.t) : TeamCity.t :=
  TeamCity.__init__ (Some "u") (Some "p") "https" "tc.example.com" None s.

Definition fresh (s : Session.t) : State :=
  mkState (ProjectQuerySet.__init__ (guest s)) [].

End Samples.

(** ** Call sequences of a client *)

Module Scenarios.

Import QuerySet.

(** [qs.filter(id=x)] followed by [qs.get()]. *)
Definition filter_id_then_get (x : string) : M (string + Project.t) :=
  ProjectQuerySet.filter (ProjectQuerySet.mkCriteria (Some x) None) ;;;
  ProjectQuerySet.get false false ProjectQuerySet.no_criteria.

(** A query set on which [filter(name="N")] was called before. *)
Definition filtered_by_name (s : Session.t) : State :=
  mkState
    (with_locator (ProjectQuerySet.__init__ (Samples.guest s))
       (Locator.add_predicate "name" "N" Locator.empty))
    [].

(** A query set whose payload was fetched before, by [len] or an iteration. *)
Definition fetched (s : Session.t) (payload : PyVal) : State :=
  mkState
    (with_data_dict
       (with_url (ProjectQuerySet.__init__ (Samples.guest s))
          "http://tc/guestAuth/app/rest/projects/")
       payload)
    ["http://tc/guestAuth/app/rest/projects/"].

End Scenarios.

Example guest_base_url :
  TeamCity.base_url (Samples.guest (Samples.serving PyNone)) = "http://tc/guestAuth".
Proof. reflexivity. Qed.

Example secure_base_url :
  TeamCity.base_url (Samples.secure (Samples.serving PyNone))
  = "https://tc.example.com/httpAuth".
Proof. reflexivity. Qed.

Example port_in_base_url :
  TeamCity.base_base_url
    (TeamCity.__init__ None None "http" "tc" (Some 8111) (Samples.serving PyNone))
  = "http://tc:8111".
Proof. vm_compute. reflexivity. Qed.

Example len_of_two_projects :
  QuerySet.len (Samples.fresh (Samples.serving Samples.two_projects))
  = (Ok 2,
     QuerySet.mkState
       (QuerySet.mk (Samples.guest (Samples.serving Samples.two_projects))
          "http://tc/guestAuth/app/rest/projects/" Locator.empty Samples.two_projects
          (Some "http://tc/guestAuth/app/rest/projects/"))
       ["http://tc/guestAuth/app/rest/projects/"]).
Proof. reflexivity. Qed.

Example second_of_two_projects :
  fst (ProjectQuerySet.__getitem__ 1 (Samples.fresh (Samples.serving Samples.two_projects)))
  = Ok (Project.mk (PyStr "B") PyNone PyNone PyNone PyNone PyNone
          (Some (Samples.guest (Samples.serving Samples.two_projects)))
          (PyDict [("id", PyStr "B")])).
Proof. reflexivity. Qed.

Example third_of_two_projects :
  fst (ProjectQuerySet.__getitem__ 2 (Samples.fresh (Samples.serving Samples.two_projects)))
  = Raise StopIteration.
Proof. reflexivity. Qed.

(** ** Locator lemmas *)

Lemma append_empty_r (s : string) : s ++ EmptyString = s.
Proof. induction s as [|c s IH]; simpl; [reflexivity | now rewrite IH]. Qed.

Lemma append_assoc (a b c : string) : (a ++ b) ++ c = a ++ (b ++ c).
Proof. induction a as [|x a IH]; simpl; [reflexivity | now rewrite IH]. Qed.

Lemma predicate_str_nonempty (p : string * string) : Locator.predicate_str p <> EmptyString.
Proof.
  destruct p as [n v]. unfold Locator.predicate_str. simpl.
  destruct n; simpl; discriminate.
Qed.

Lemma join_predicates_concat (ps : list (string * string)) :
  Locator.join_predicates ps = String.concat "," (map Locator.predicate_str ps).
Proof.
  induction ps as [|p ps IH]; [reflexivity|].
  destruct ps as [|p' ps]; [reflexivity|].
  change (Locator.join_predicates (p :: p' :: ps))
    with (Locator.predicate_str p ++ "," ++ Locator.join_predicates (p' :: ps)).
  rewrite IH. reflexivity.
Qed.

Lemma join_predicates_snoc (ps : list (string * string)) (p : string * string) :
  Locator.join_predicates (ps ++ [p])
  = match ps with
    | [] => Locator.predicate_str p
    | _ :: _ => Locator.join_predicates ps ++ "," ++ Locator.predicate_str p
    end.
Proof.
  induction ps as [|q ps IH]; [reflexivity|].
  destruct ps as [|q' ps]; [reflexivity|].
  change (Locator.join_predicates ((q :: q' :: ps) ++ [p]))
    with (Locator.predicate_str q ++ "," ++ Locator.join_predicates ((q' :: ps) ++ [p])).
  rewrite IH.
  change (Locator.join_predicates (q :: q' :: ps))
    with (Locator.predicate_str q ++ "," ++ Locator.join_predicates (q' :: ps)).
  now rewrite !append_assoc.
Qed.

Lemma join_predicates_empty (ps : list (string * string)) :
  Locator.join_predicates ps = EmptyString <-> ps = [].
Proof.
  split; [|intros ->; reflexivity].
  destruct ps as [|p ps]; [reflexivity|]. intro H. exfalso.
  destruct ps as [|p' ps].
  - exact (predicate_str_nonempty p H).
  - change (Locator.predicate_str p ++ "," ++ Locator.join_predicates (p' :: ps) = EmptyString) in H.
    destruct p as [n v]. unfold Locator.predicate_str in H. simpl in H.
    destruct n; simpl in H; discriminate.
Qed.

Lemma add_all_predicates (calls : list (string * string)) (l : Locator.t) :
  Locator.predicates (Locator.add_all calls l) = (Locator.predicates l ++ calls)%list.
Proof.
  revert l. induction calls as [|c calls IH]; intro l; simpl.
  - now rewrite app_nil_r.
  - unfold Locator.add_all in IH. rewrite IH. simpl.
    destruct c as [n v]. simpl. now rewrite <- app_assoc.
Qed.

Lemma str_truthy_false (s : string) : str_truthy s = false <-> s = EmptyString.
Proof.
  unfold str_truthy. destruct (String.eqb_spec s EmptyString); simpl; split; intros; congruence.
Qed.

(** ** How the methods run *)

Section Runs.

Import QuerySet.

Lemma get_url_run (details : bool) (href : option string) (st : State) :
  _get_url details href st = (Ok (url_for details href (self st)), st).
Proof.
  unfold _get_url, url_for, bind, read_self, ret.
  destruct href as [h|]; [reflexivity|].
  destruct (str_truthy (Locator.render (_locator (self st)))); [|reflexivity].
  destruct details; reflexivity.
Qed.

Lemma url_for_details (q : QuerySet.t) :
  url_for true None q = base_url q ++ Locator.render (_locator q).
Proof.
  unfold url_for.
  destruct (str_truthy (Locator.render (_locator q))) eqn:E; [reflexivity|].
  apply str_truthy_false in E. rewrite E. now rewrite append_empty_r.
Qed.

Lemma fetch_run (details : bool) (href : option string) (st : State) :
  let u := url_for details href (self st) in
  _fetch details href st
  = (response_outcome (answer st u),
     mkState (with_url (self st) u) (requests st ++ [u])%list).
Proof.
  intro u. unfold _fetch. unfold bind at 1. rewrite get_url_run. fold u.
  unfold bind, set_url, session_get, response_outcome, answer, raise, ret. cbn.
  destruct (Response.raise_for_status _) as [reason|].
  - destruct (Response.status_code _ =? 401); reflexivity.
  - destruct (Response.json _); reflexivity.
Qed.

Lemma data_run_cached (details : bool) (href : option string) (st : State) :
  truthy (_data_dict (self st)) = true ->
  _data details href st = (Ok (_data_dict (self st)), st).
Proof.
  intro H. unfold _data, bind, read_self, ret. cbn. rewrite H. reflexivity.
Qed.

Lemma data_run_fetch (details : bool) (href : option string) (st : State) :
  truthy (_data_dict (self st)) = false ->
  let u := url_for details href (self st) in
  _data details href st
  = match response_outcome (answer st u) with
    | Ok d => (Ok d, mkState (with_data_dict (with_url (self st) u) d)
                       (requests st ++ [u])%list)
    | Raise e => (Raise e, mkState (with_url (self st) u) (requests st ++ [u])%list)
    end.
Proof.
  intros H u. unfold _data. unfold bind at 1. unfold read_self at 1.
  rewrite H. cbn [negb]. unfold bind at 1. unfold bind at 1.
  rewrite fetch_run. fold u.
  destruct (response_outcome (answer st u)) as [d|e]; reflexivity.
Qed.

Lemma filter_run (kwargs : ProjectQuerySet.Criteria) (st : State) :
  ProjectQuerySet.filter kwargs st
  = (Ok tt,
     mkState (with_locator (self st) (ProjectQuerySet.filtered kwargs (_locator (self st))))
       (requests st)).
Proof.
  destruct st as [[tc b l d u] log]. destruct kwargs as [[i|] [n|]]; reflexivity.
Qed.

End Runs.

(** ** get *)

Section Get.

Import QuerySet.

(** The state [get] reaches once it has applied the criteria and dropped the
    memoized payload. *)
Lemma get_run_unchecked (just_url : bool) (kwargs : ProjectQuerySet.Criteria) (st : State) :
  let q1 := with_data_dict
              (with_locator (self st) (ProjectQuerySet.filtered kwargs (_locator (self st))))
              PyNone in
  let st1 := mkState q1 (requests st) in
  ProjectQuerySet.get just_url false kwargs st
  = if just_url
    then (Ok (inl (url_for true None q1)), st1)
    else bind (_data true None)
           (fun d => bind read_self
              (fun q => bind (lift (ProjectQuerySet.entity_from_dict d q))
                 (fun e => ret (inr e)))) st1.
Proof.
  intros q1 st1. unfold ProjectQuerySet.get, QuerySet.get.
  unfold bind at 1. rewrite filter_run.
  unfold bind at 1. unfold bind at 1. unfold ret at 1.
  unfold bind at 1. unfold set_data_dict at 1. cbn [self requests].
  fold q1. fold st1.
  destruct just_url; [|reflexivity].
  unfold bind. rewrite get_url_run. reflexivity.
Qed.

(** C8: [get(just_url=True)] returns the base path with the rendered locator
    appended directly (no [?locator=] in between), and the request log is
    left as it was: no GET is issued, so no response is decoded. *)
Theorem get_just_url_returns_detail_url
    (q : QuerySet.t) (log : list string) (kwargs : ProjectQuerySet.Criteria) :
  let l' := ProjectQuerySet.filtered kwargs (_locator q) in
  ProjectQuerySet.get true false kwargs (mkState q log)
  = (Ok (inl (base_url q ++ Locator.render l')),
     mkState (with_data_dict (with_locator q l') PyNone) log).
Proof.
  intro l'. rewrite get_run_unchecked. cbn [self requests].
  rewrite url_for_details. reflexivity.
Qed.

End Get.

(** ** The length path *)

Section Length.

Import QuerySet.

Lemma bind_lift_state {A B} (m : M A) (f : A -> result B) (st : State) :
  snd (bind m (fun x => lift (f x)) st) = snd (m st).
Proof. unfold bind, lift. destruct (m st) as [[a|e] st']; reflexivity. Qed.

Lemma len_state (st : State) : snd (len st) = snd (_data false None st).
Proof.
  unfold len, __len__. now rewrite !bind_lift_state.
Qed.

Lemma iter_state (st : State) :
  snd (ProjectQuerySet.__iter__ st) = snd (_data false None st).
Proof.
  unfold ProjectQuerySet.__iter__, bind, lift, read_self, ret.
  destruct (_data false None st) as [[d|e] st']; [|reflexivity].
  destruct (subscript d "project") as [items|e]; [|reflexivity].
  destruct (py_iter items); reflexivity.
Qed.

Lemma data_state_unfetched (details : bool) (href : option string) (st : State) :
  truthy (_data_dict (self st)) = false ->
  let st' := snd (_data details href st) in
  requests st' = (requests st ++ [url_for details href (self st)])%list
  /\ teamcity (self st') = teamcity (self st)
  /\ base_url (self st') = base_url (self st)
  /\ _locator (self st') = _locator (self st).
Proof.
  intros H st'. subst st'. rewrite (data_run_fetch _ _ _ H).
  destruct (response_outcome _); cbn; auto.
Qed.

(** A successful [__len__] leaves a payload that the next call reuses. *)
Lemma len_method_stable (st st1 : State) (v : PyVal) :
  __len__ st = (Ok v, st1) -> __len__ st1 = (Ok v, st1).
Proof.
  unfold __len__, bind, lift.
  destruct (truthy (_data_dict (self st))) eqn:T.
  - rewrite (data_run_cached _ _ _ T).
    destruct (subscript _ _) eqn:S; [|discriminate].
    intro E. inversion E; subst. rewrite (data_run_cached _ _ _ T), S. reflexivity.
  - rewrite (data_run_fetch _ _ _ T).
    destruct (response_outcome _) as [d|e]; [|discriminate].
    destruct (subscript d "count") eqn:S; [|discriminate].
    intro E. inversion E; subst.
    assert (T1 : truthy d = true).
    { destruct d; try discriminate S. cbn in S. destruct fields; [discriminate|reflexivity]. }
    rewrite data_run_cached by exact T1. cbn. rewrite S. reflexivity.
Qed.

Lemma len_stable (st st1 : State) (n : Z) :
  len st = (Ok n, st1) -> len st1 = (Ok n, st1).
Proof.
  unfold len. unfold bind at 1. unfold lift at 1.
  destruct (__len__ st) as [[v|e] st'] eqn:L; [|discriminate].
  intro E. assert (st' = st1) by (destruct (len_protocol v); congruence). subst st'.
  unfold bind, lift. rewrite (len_method_stable _ _ _ L).
  destruct (len_protocol v); congruence.
Qed.

(** C2: on a query set without a memoized payload the first [len] issues
    exactly one GET, whatever comes back; once it has returned a count, a
    second [len] returns the same count from the same payload and leaves the
    request log (and the object) as it was. *)
Theorem len_fetches_at_most_once (q : QuerySet.t) (log : list string)
    (H : truthy (_data_dict q) = false) :
  requests (snd (len (mkState q log))) = (log ++ [url_for false None q])%list
  /\ (forall v st1, __len__ (mkState q log) = (Ok v, st1) ->
        __len__ st1 = (Ok v, st1) /\ subscript (_data_dict (self st1)) "count" = Ok v)
  /\ (forall n st1, len (mkState q log) = (Ok n, st1) -> len st1 = (Ok n, st1)).
Proof.
  split; [|split].
  - rewrite len_state. apply (data_state_unfetched false None (mkState q log) H).
  - intros v st1 L. split; [exact (len_method_stable _ _ _ L)|].
    revert L. unfold __len__, bind, lift.
    rewrite (data_run_fetch false None (mkState q log) H).
    destruct (response_outcome _) as [d|e]; [|discriminate].
    destruct (subscript d "count") eqn:S; [|discriminate].
    intro E. inversion E; subst. exact S.
  - intros n st1 L. exact (len_stable _ _ _ L).
Qed.

Lemma len_fetches_at_most_once_witness :
  let st := Samples.fresh (Samples.serving Samples.two_projects) in
  requests (snd (len st)) = ["http://tc/guestAuth/app/rest/projects/"]
  /\ len (snd (len st)) = (Ok 2, snd (len st)).
Proof.
  intro st.
  destruct (len_fetches_at_most_once (self st) (requests st) eq_refl) as (H1 & _ & H3).
  split; [exact H1|].
  apply (H3 2 (snd (len st))). reflexivity.
Defined.

(** C10 (amended): [len] needs the key [count] in the payload.  The method
    [__len__] returns the integer stored under the key, whatever it is, and
    [len(queryset)] returns it when it lies between 0 and [sys.maxsize]; a
    negative count makes [len] raise [ValueError], one above [sys.maxsize]
    [OverflowError].  For a dict payload without the key both fail with
    [KeyError] for [count]; there is no default. *)
Theorem len_method_needs_count (st st1 : State) (fields : list (string * PyVal))
    (H : _data false None st = (Ok (PyDict fields), st1)) :
  (forall n, dict_lookup "count" fields = Some (PyInt n) ->
     __len__ st = (Ok (PyInt n), st1)
     /\ (0 <= n <= sys_maxsize -> len st = (Ok n, st1))
     /\ (n < 0 -> len st = (Raise ValueError, st1))
     /\ (sys_maxsize < n -> len st = (Raise OverflowError, st1)))
  /\ (dict_lookup "count" fields = None ->
      __len__ st = (Raise (KeyError "count"), st1)
      /\ len st = (Raise (KeyError "count"), st1)).
Proof.
  assert (L : __len__ st
              = (match dict_lookup "count" fields with
                 | Some x => Ok x
                 | None => Raise (KeyError "count")
                 end, st1)).
  { unfold __len__, bind, lift. rewrite H. reflexivity. }
  split.
  - intros n E. rewrite E in L. split; [exact L|].
    unfold len, bind, lift. rewrite L. cbn [len_protocol].
    split; [|split]; intro Hn.
    + replace (n <? 0) with false by (symmetry; apply Z.ltb_ge; lia).
      replace (n >? sys_maxsize) with false
        by (symmetry; rewrite Z.gtb_ltb; apply Z.ltb_ge; lia).
      reflexivity.
    + replace (n <? 0) with true by (symmetry; apply Z.ltb_lt; lia). reflexivity.
    + replace (n <? 0) with false
        by (symmetry; apply Z.ltb_ge; unfold sys_maxsize in Hn; lia).
      replace (n >? sys_maxsize) with true
        by (symmetry; rewrite Z.gtb_ltb; apply Z.ltb_lt; lia).
      reflexivity.
  - intro E. rewrite E in L. split; [exact L|].
    unfold len, bind, lift. rewrite L. reflexivity.
Qed.

Lemma len_method_needs_count_witness :
  len (Samples.fresh (Samples.serving Samples.two_projects))
  = (Ok 2, snd (_data false None (Samples.fresh (Samples.serving Samples.two_projects))))
  /\ len (Samples.fresh (Samples.serving (PyDict [("count", PyInt (-1))])))
     = (Raise ValueError,
        snd (_data false None
               (Samples.fresh (Samples.serving (PyDict [("count", PyInt (-1))])))))
  /\ len (Samples.fresh (Samples.serving (PyDict [("project", PyList [])])))
     = (Raise (KeyError "count"),
        snd (_data false None
               (Samples.fresh (Samples.serving (PyDict [("project", PyList [])]))))).
Proof.
  assert (B : 0 <= 2 <= sys_maxsize) by (unfold sys_maxsize; lia).
  split; [|split].
  - refine (proj1 (proj2 (proj1 (len_method_needs_count _ _ _ _) 2 _)) B); reflexivity.
  - refine (proj1 (proj2 (proj2 (proj1 (len_method_needs_count _ _ _ _) (-1) _))) _);
      [reflexivity | reflexivity | lia].
  - refine (proj2 (proj2 (len_method_needs_count _ _ _ _) _)); reflexivity.
Defined.

(** C10 as stated fails: with the integer -1 under [count], [len] does not
    return it but raises [ValueError]. *)
Lemma len_of_negative_count :
  ~ (forall (st st1 : State) (fields : list (string * PyVal)) (n : Z),
       _data false None st = (Ok (PyDict fields), st1) ->
       dict_lookup "count" fields = Some (PyInt n) ->
       len st = (Ok n, st1)).
Proof.
  intro H.
  specialize (H (Samples.fresh (Samples.serving (PyDict [("count", PyInt (-1))]))) _
                [("count", PyInt (-1))] (-1) eq_refl eq_refl).
  vm_compute in H. discriminate H.
Qed.

End Length.

(** ** get and the memoized payload *)

Section GetPayload.

Import QuerySet.

(** C9: [get(just_url=True)] issues no request; it leaves the payload unset
    and the locator as the criteria made it, and touches no other attribute;
    the next [len] or iteration therefore fetches again (one GET, of the
    collection URL). *)
Theorem get_just_url_only_clears_payload
    (q : QuerySet.t) (log : list string) (kwargs : ProjectQuerySet.Criteria) :
  let st' := snd (ProjectQuerySet.get true false kwargs (mkState q log)) in
  requests st' = log
  /\ _data_dict (self st') = PyNone
  /\ _locator (self st') = ProjectQuerySet.filtered kwargs (_locator q)
  /\ teamcity (self st') = teamcity q
  /\ base_url (self st') = base_url q
  /\ url (self st') = url q
  /\ requests (snd (len st')) = (log ++ [url_for false None (self st')])%list
  /\ requests (snd (ProjectQuerySet.__iter__ st')) = (log ++ [url_for false None (self st')])%list.
Proof.
  intro st'. subst st'. rewrite get_run_unchecked. cbn [snd self requests].
  repeat (split; [reflexivity|]).
  split.
  - rewrite len_state. now apply data_state_unfetched.
  - rewrite iter_state. now apply data_state_unfetched.
Qed.

Lemma filter_id_then_get_run (x : string) (q : QuerySet.t) (log : list string) :
  let l' := Locator.add_predicate "id" x (_locator q) in
  let u := base_url q ++ Locator.render l' in
  let q1 := with_locator q l' in
  Scenarios.filter_id_then_get x (mkState q log)
  = match response_outcome (answer (mkState q1 log) u) with
    | Raise e =>
        (Raise e, mkState (with_url (with_data_dict q1 PyNone) u) (log ++ [u])%list)
    | Ok d =>
        let q2 := with_data_dict (with_url (with_data_dict q1 PyNone) u) d in
        (match ProjectQuerySet.entity_from_dict d q2 with
         | Ok p => Ok (inr p)
         | Raise e => Raise e
         end,
         mkState q2 (log ++ [u])%list)
    end.
Proof.
  intros l' u q1. unfold Scenarios.filter_id_then_get.
  unfold bind at 1. rewrite filter_run. rewrite get_run_unchecked.
  cbn [self requests ProjectQuerySet.filtered ProjectQuerySet.id ProjectQuerySet.name
       ProjectQuerySet.no_criteria with_locator _locator teamcity base_url _data_dict url].
  fold l'. unfold bind at 1.
  rewrite data_run_fetch by reflexivity.
  cbn [self requests]. rewrite url_for_details. cbn [base_url _locator with_data_dict].
  fold u. unfold answer. cbn [self requests teamcity with_data_dict with_locator].
  destruct (response_outcome _) as [d|e]; [|reflexivity].
  unfold bind, read_self, lift, ret. cbn [self].
  destruct (ProjectQuerySet.entity_from_dict _ _); reflexivity.
Qed.

(** C1 (amended): [filter(id=x)] followed by [get()] issues exactly one GET,
    of the base path with the rendered locator appended directly; the locator
    is the earlier predicates followed by [id:x], hence [id:x] alone when
    there was none; the outcome does not depend on the payload memoized
    before; the result is built from the response to that request: the
    condition [_fetch] raises for it, or the entity [from_dict] makes of its
    decoded body, which is also what the query set memoizes. *)
Theorem filter_id_get_requests_detail_url (x : string) (q : QuerySet.t) (log : list string) :
  let l' := Locator.add_predicate "id" x (_locator q) in
  let u := base_url q ++ Locator.render l' in
  let res := answer (mkState q log) u in
  let run := Scenarios.filter_id_then_get x (mkState q log) in
  requests (snd run) = (log ++ [u])%list
  /\ Locator.render l'
     = match Locator.predicates (_locator q) with
       | [] => "id:" ++ x
       | _ :: _ => Locator.render (_locator q) ++ ",id:" ++ x
       end
  /\ (forall d,
        Scenarios.filter_id_then_get x (mkState (with_data_dict q d) log)
        = Scenarios.filter_id_then_get x (mkState (with_data_dict q PyNone) log))
  /\ (forall payload,
        Response.raise_for_status res = None ->
        Response.json res = Some payload ->
        _data_dict (self (snd run)) = payload
        /\ fst run
           = match Project.from_dict payload (Some (self (snd run))) None with
             | Ok p => Ok (inr p)
             | Raise e => Raise e
             end
        /\ (forall fields, payload = PyDict fields ->
              exists p, fst run = Ok (inr p)
                        /\ Project._data_dict p = payload
                        /\ Project.id p
                           = match dict_lookup "id" fields with
                             | Some v => v
                             | None => PyNone
                             end))
  /\ (forall reason,
        Response.raise_for_status res = Some reason ->
        fst run
        = Raise ((if Response.status_code res =? 401 then UnauthorizedError else HTTPError)
                   (Response.status_code res) reason (Response.text res))
        /\ _data_dict (self (snd run)) = PyNone)
  /\ (Response.raise_for_status res = None -> Response.json res = None ->
      fst run = Raise JSONDecodeError /\ _data_dict (self (snd run)) = PyNone).
Proof.
  intros l' u res run.
  assert (E : run
              = match response_outcome res with
                | Raise e =>
                    (Raise e,
                     mkState (with_url (with_data_dict (with_locator q l') PyNone) u)
                       (log ++ [u])%list)
                | Ok d =>
                    let q2 := with_data_dict
                                (with_url (with_data_dict (with_locator q l') PyNone) u) d in
                    (match ProjectQuerySet.entity_from_dict d q2 with
                     | Ok p => Ok (inr p)
                     | Raise e => Raise e
                     end,
                     mkState q2 (log ++ [u])%list)
                end).
  { subst run. rewrite filter_id_then_get_run. reflexivity. }
  split; [|split; [|split; [|split]]].
  - rewrite E. destruct (response_outcome res); reflexivity.
  - unfold l', Locator.render, Locator.add_predicate. cbn [Locator.predicates].
    rewrite join_predicates_snoc. destruct (Locator.predicates (_locator q)); reflexivity.
  - intro d. rewrite !filter_id_then_get_run. reflexivity.
  - intros payload R J. rewrite E. unfold response_outcome. rewrite R, J.
    cbn [fst snd self _data_dict with_data_dict].
    split; [reflexivity|]. split; [reflexivity|].
    intros fields ->. eexists. split; [reflexivity|]. split; reflexivity.
  - split.
    + intros reason R. rewrite E. unfold response_outcome. rewrite R.
      destruct (Response.status_code res =? 401); split; reflexivity.
    + intros R J. rewrite E. unfold response_outcome. rewrite R, J. split; reflexivity.
Qed.

Lemma filter_id_get_requests_detail_url_witness :
  let st := Scenarios.fetched (Samples.serving (PyDict [("id", PyStr "X")]))
              Samples.two_projects in
  requests (snd (Scenarios.filter_id_then_get "X" st))
  = ["http://tc/guestAuth/app/rest/projects/";
     "http://tc/guestAuth/app/rest/projects/id:X"]
  /\ _data_dict (self (snd (Scenarios.filter_id_then_get "X" st)))
     = PyDict [("id", PyStr "X")]
  /\ exists p, fst (Scenarios.filter_id_then_get "X" st) = Ok (inr p)
               /\ Project.id p = PyStr "X".
Proof.
  intro st.
  pose proof (filter_id_get_requests_detail_url "X" (self st) (requests st))
    as (H1 & _ & _ & H4 & _).
  split; [exact H1|].
  destruct (H4 (PyDict [("id", PyStr "X")]) eq_refl eq_refl) as (Hm & _ & Hp).
  split; [exact Hm|].
  destruct (Hp [("id", PyStr "X")] eq_refl) as (p & Hr & _ & Hid).
  exists p. split; [exact Hr | exact Hid].
Defined.

(** C1 as stated fails: with an earlier [name] predicate in the locator the
    GET goes to [.../name:N,id:X], not to the base path followed by [id:X]. *)
Lemma filter_id_get_after_name_filter :
  ~ (forall (x : string) (q : QuerySet.t) (log : list string),
       requests (snd (Scenarios.filter_id_then_get x (mkState q log)))
       = (log ++ [(base_url q ++ "id:" ++ x)%string])%list).
Proof.
  intro H.
  specialize (H "X" (self (Scenarios.filtered_by_name (Samples.serving Samples.one_project)))
                []%list).
  vm_compute in H. discriminate H.
Qed.

End GetPayload.

(** ** get with the multiple-objects check *)

Section GetChecked.

Import QuerySet.

Lemma entity_from_dict_raises (d : PyVal) (q : QuerySet.t) (e : Exception) :
  ProjectQuerySet.entity_from_dict d q = Raise e -> e = AttributeError.
Proof.
  unfold ProjectQuerySet.entity_from_dict, Project.from_dict.
  destruct d; cbn; congruence.
Qed.

Lemma response_outcome_raises (res : Response.t) (e : Exception) :
  response_outcome res = Raise e -> e <> MultipleObjectsReturned.
Proof.
  unfold response_outcome.
  destruct (Response.raise_for_status res).
  - destruct (_ =? 401); intro E; inversion E; discriminate.
  - destruct (Response.json res); intro E; inversion E; discriminate.
Qed.

Lemma detail_fetch_eq (st : State) :
  truthy (_data_dict (self st)) = false ->
  let u := base_url (self st) ++ Locator.render (_locator (self st)) in
  ProjectQuerySet.detail_fetch st
  = match response_outcome (answer st u) with
    | Raise e => (Raise e, mkState (with_url (self st) u) (requests st ++ [u])%list)
    | Ok d =>
        let q2 := with_data_dict (with_url (self st) u) d in
        (match ProjectQuerySet.entity_from_dict d q2 with
         | Ok p => Ok (inr p)
         | Raise e => Raise e
         end,
         mkState q2 (requests st ++ [u])%list)
    end.
Proof.
  intros T u. unfold ProjectQuerySet.detail_fetch. unfold bind at 1.
  rewrite (data_run_fetch _ _ _ T). rewrite url_for_details. fold u.
  destruct (response_outcome _) as [d|e]; [|reflexivity].
  unfold bind, read_self, lift, ret. cbn [self].
  destruct (ProjectQuerySet.entity_from_dict _ _); reflexivity.
Qed.

Lemma detail_fetch_run (st : State) :
  truthy (_data_dict (self st)) = false ->
  let u := base_url (self st) ++ Locator.render (_locator (self st)) in
  requests (snd (ProjectQuerySet.detail_fetch st)) = (requests st ++ [u])%list
  /\ fst (ProjectQuerySet.detail_fetch st) <> Raise MultipleObjectsReturned.
Proof.
  intros T u. rewrite (detail_fetch_eq st T). fold u.
  destruct (response_outcome _) as [d|e] eqn:R.
  - cbn [fst snd requests]. split; [reflexivity|].
    destruct (ProjectQuerySet.entity_from_dict _ _) as [p|e] eqn:F.
    + discriminate.
    + apply entity_from_dict_raises in F. subst e. discriminate.
  - cbn [fst snd requests]. split; [reflexivity|]. intro E. inversion E; subst.
    exact (response_outcome_raises _ _ R eq_refl).
Qed.

Lemma get_run_checked (kwargs : ProjectQuerySet.Criteria) (st : State) :
  let st0 := mkState (with_locator (self st)
                        (ProjectQuerySet.filtered kwargs (_locator (self st))))
               (requests st) in
  ProjectQuerySet.get false true kwargs st
  = match len st0 with
    | (Raise e, st2) => (Raise e, st2)
    | (Ok n, st2) =>
        if n >? 1 then (Raise MultipleObjectsReturned, st2)
        else ProjectQuerySet.detail_fetch (mkState (with_data_dict (self st2) PyNone) (requests st2))
    end.
Proof.
  intro st0. unfold ProjectQuerySet.get, QuerySet.get.
  unfold bind at 1. rewrite filter_run. fold st0.
  unfold bind at 1. unfold bind at 1.
  destruct (len st0) as [[n|e] st2]; [|reflexivity].
  destruct (n >? 1); reflexivity.
Qed.

Lemma len_protocol_raises (v : PyVal) (e : Exception) :
  len_protocol v = Raise e -> e <> MultipleObjectsReturned.
Proof.
  destruct v; cbn [len_protocol]; try (intro E; inversion E; discriminate).
  destruct (n <? 0); [intro E; inversion E; discriminate|].
  destruct (n >? sys_maxsize); intro E; inversion E; discriminate.
Qed.

Lemma subscript_raises (v : PyVal) (key : string) (e : Exception) :
  subscript v key = Raise e -> e <> MultipleObjectsReturned.
Proof.
  destruct v; cbn [subscript]; try (intro E; inversion E; discriminate).
  destruct (dict_lookup key fields); intro E; inversion E; discriminate.
Qed.

Lemma data_raises (details : bool) (href : option string) (st st' : State) (e : Exception) :
  _data details href st = (Raise e, st') -> e <> MultipleObjectsReturned.
Proof.
  destruct (truthy (_data_dict (self st))) eqn:T.
  - rewrite (data_run_cached _ _ _ T). discriminate.
  - rewrite (data_run_fetch _ _ _ T).
    destruct (response_outcome _) as [d|e2] eqn:R; [discriminate|].
    intro E. inversion E; subst. exact (response_outcome_raises _ _ R).
Qed.

Lemma len_raises (st st' : State) (e : Exception) :
  len st = (Raise e, st') -> e <> MultipleObjectsReturned.
Proof.
  unfold len, __len__, bind, lift.
  destruct (_data false None st) as [[d|e1] st1] eqn:D.
  - destruct (subscript d "count") as [v|e2] eqn:S.
    + destruct (len_protocol v) as [n|e3] eqn:P; [discriminate|].
      intro E. inversion E; subst. exact (len_protocol_raises _ _ P).
    + intro E. inversion E; subst. exact (subscript_raises _ _ _ S).
  - intro E. inversion E; subst. exact (data_raises _ _ _ _ _ D).
Qed.

Lemma len_frame (st : State) :
  base_url (self (snd (len st))) = base_url (self st)
  /\ _locator (self (snd (len st))) = _locator (self st).
Proof.
  rewrite len_state.
  destruct (truthy (_data_dict (self st))) eqn:T.
  - rewrite (data_run_cached _ _ _ T). split; reflexivity.
  - destruct (data_state_unfetched false None st T) as (_ & _ & Hb & Hl). now split.
Qed.

(** C3 (amended): in [get(raise_multiple_objects_returned=True)] the count
    comes from the length path, which fetches the collection URL only when no
    payload is memoized and otherwise reads the memoized one without a
    request.  With a count above 1 the call raises
    [MultipleObjectsReturned] and no detail request is issued; with a count
    of at most 1 the detail request follows and the call does not raise that
    condition.  The condition is raised in no other case. *)
Theorem get_checked_count_then_detail
    (q : QuerySet.t) (log : list string) (kwargs : ProjectQuerySet.Criteria) :
  let l' := ProjectQuerySet.filtered kwargs (_locator q) in
  let st0 := mkState (with_locator q l') log in
  let count_url := url_for false None (self st0) in
  let detail_url := base_url q ++ Locator.render l' in
  let run := ProjectQuerySet.get false true kwargs (mkState q log) in
  (truthy (_data_dict q) = false -> requests (snd (len st0)) = (log ++ [count_url])%list)
  /\ (truthy (_data_dict q) = true -> snd (len st0) = st0)
  /\ (forall n st2, len st0 = (Ok n, st2) ->
        (n > 1 -> run = (Raise MultipleObjectsReturned, st2))
        /\ (n <= 1 ->
              requests (snd run) = (requests st2 ++ [detail_url])%list
              /\ requests (snd run)
                 = (if truthy (_data_dict q) then log ++ [detail_url]
                    else log ++ [count_url; detail_url])%list
              /\ fst run <> Raise MultipleObjectsReturned))
  /\ (forall st', run = (Raise MultipleObjectsReturned, st') ->
        exists n, len st0 = (Ok n, st') /\ n > 1).
Proof.
  intros l' st0 count_url detail_url run.
  assert (A : truthy (_data_dict q) = false ->
              requests (snd (len st0)) = (log ++ [count_url])%list).
  { intro T. rewrite len_state. apply (data_state_unfetched false None st0 T). }
  assert (B : truthy (_data_dict q) = true -> snd (len st0) = st0).
  { intro T. rewrite len_state. now rewrite (data_run_cached false None st0 T). }
  split; [exact A|]. split; [exact B|]. split.
  - intros n st2 L. subst run. rewrite get_run_checked. cbn [self requests]. fold l' st0.
    rewrite L. split; intro Hn.
    + destruct (Z.gtb_spec n 1); [reflexivity | lia].
    + destruct (Z.gtb_spec n 1); [lia|].
      pose proof (len_frame st0) as (Hb & Hl). rewrite L in Hb, Hl. cbn [snd] in Hb, Hl.
      pose proof (detail_fetch_run
                    (mkState (with_data_dict (self st2) PyNone) (requests st2)) eq_refl)
        as (Hr & Hf).
      cbn [self requests with_data_dict base_url _locator] in Hr.
      rewrite Hb, Hl in Hr. cbn [self st0 with_locator base_url _locator] in Hr.
      fold detail_url in Hr.
      split; [exact Hr|]. split; [|exact Hf].
      rewrite Hr. destruct (truthy (_data_dict q)) eqn:T.
      * specialize (B eq_refl). rewrite L in B. cbn [snd] in B. now rewrite B.
      * specialize (A eq_refl). rewrite L in A. cbn [snd] in A. rewrite A.
        now rewrite <- app_assoc.
  - intros st'. subst run. rewrite get_run_checked. cbn [self requests]. fold l' st0.
    destruct (len st0) as [[n|e] st2] eqn:L.
    + destruct (Z.gtb_spec n 1).
      * intro E. inversion E; subst. exists n. split; [reflexivity | lia].
      * intro E. exfalso.
        pose proof (detail_fetch_run
                      (mkState (with_data_dict (self st2) PyNone) (requests st2)) eq_refl)
          as (_ & Hf).
        rewrite E in Hf. now apply Hf.
    + intro E. inversion E; subst. exfalso.
      exact (len_raises _ _ _ L eq_refl).
Qed.

Lemma get_checked_count_then_detail_witness :
  ProjectQuerySet.get false true ProjectQuerySet.no_criteria
    (Samples.fresh (Samples.serving Samples.two_projects))
  = (Raise MultipleObjectsReturned,
     snd (len (Samples.fresh (Samples.serving Samples.two_projects))))
  /\ requests (snd (ProjectQuerySet.get false true
                      (ProjectQuerySet.mkCriteria (Some "A") None)
                      (Samples.fresh (Samples.serving Samples.one_project))))
     = ["http://tc/guestAuth/app/rest/projects/?locator=id:A";
        "http://tc/guestAuth/app/rest/projects/id:A"].
Proof.
  split.
  - pose proof (get_checked_count_then_detail
                  (self (Samples.fresh (Samples.serving Samples.two_projects))) []
                  ProjectQuerySet.no_criteria) as (_ & _ & H & _).
    refine (proj1 (H 2 _ eq_refl) _). reflexivity.
  - pose proof (get_checked_count_then_detail
                  (self (Samples.fresh (Samples.serving Samples.one_project))) []
                  (ProjectQuerySet.mkCriteria (Some "A") None)) as (_ & _ & H & _).
    refine (proj1 (proj2 (proj2 (H 1 _ eq_refl) _))). discriminate.
Defined.

(** C3 as stated fails: on a query set that already holds a payload the
    count is read from it, and the call issues one request, not two. *)
Lemma get_checked_on_fetched_query_set :
  ~ (forall (q : QuerySet.t) (log : list string) (kwargs : ProjectQuerySet.Criteria),
       exists count_url detail_url,
         requests (snd (ProjectQuerySet.get false true kwargs (mkState q log)))
         = (log ++ [count_url; detail_url])%list).
Proof.
  intro H.
  destruct (H (self (Scenarios.fetched (Samples.serving Samples.one_project)
                       Samples.one_project))
              []%list ProjectQuerySet.no_criteria) as (u1 & u2 & E).
  vm_compute in E. discriminate E.
Qed.

End GetChecked.

(** ** Locator rendering and the collection URL *)

Section LocatorRendering.

Import QuerySet.

(** C4: [render] gives the predicates of the [add_predicate] calls, each as
    [name:value], joined by commas in call order; a repeated name is a
    further predicate; with no call the result is the empty string, and the
    collection URL is then the base path alone, with a [?locator=] part only
    when there is a predicate. *)
Theorem locator_render_in_call_order :
  (forall calls,
     Locator.render (Locator.add_all calls Locator.empty)
     = String.concat "," (map (fun c => fst c ++ ":" ++ snd c) calls))
  /\ (forall calls, Locator.predicates (Locator.add_all calls Locator.empty) = calls)
  /\ (forall name v1 v2,
        Locator.render
          (Locator.add_predicate name v2 (Locator.add_predicate name v1 Locator.empty))
        = name ++ ":" ++ v1 ++ "," ++ name ++ ":" ++ v2)
  /\ Locator.render (Locator.add_all [] Locator.empty) = EmptyString
  /\ (forall q log,
        _get_url false None (mkState (with_locator q (Locator.add_all [] Locator.empty)) log)
        = (Ok (base_url q),
           mkState (with_locator q (Locator.add_all [] Locator.empty)) log))
  /\ (forall q log c calls,
        let l := Locator.add_all (c :: calls) Locator.empty in
        _get_url false None (mkState (with_locator q l) log)
        = (Ok (base_url q ++ "?locator=" ++ Locator.render l),
           mkState (with_locator q l) log)).
Proof.
  assert (P : forall calls,
             Locator.predicates (Locator.add_all calls Locator.empty) = calls).
  { intro calls. now rewrite add_all_predicates. }
  split; [|split; [exact P|split; [|split; [reflexivity|split]]]].
  - intro calls. unfold Locator.render. rewrite P. apply join_predicates_concat.
  - intros name v1 v2. unfold Locator.render. cbn.
    unfold Locator.predicate_str. cbn. now rewrite !append_assoc.
  - intros q log. now rewrite get_url_run.
  - intros q log c calls l. rewrite get_url_run. unfold url_for.
    cbn [self _locator with_locator base_url].
    destruct (str_truthy (Locator.render l)) eqn:E; [reflexivity|].
    apply str_truthy_false in E. unfold Locator.render in E.
    apply join_predicates_empty in E. unfold l in E. rewrite P in E. discriminate E.
Qed.

End LocatorRendering.

(** ** Fetch failures and explicit hrefs *)

Section Fetch.

Import QuerySet.

(** C5 (amended): the response decides through its raise-on-error
    operation.  When [raise_for_status] rejects it, [_fetch] raises
    [UnauthorizedError] for status 401 and [HTTPError] for any other status,
    each with the status code and the body text of the response as they are.
    When [raise_for_status] accepts it, no such condition is raised, whatever
    the status: the body is decoded.  With the responses of [requests], the
    rejected statuses are those from 400 to 599; a 1xx or 3xx status is
    handled like a success. *)
Theorem fetch_error_conditions
    (q : QuerySet.t) (log : list string) (details : bool) (href : option string) :
  let res := answer (mkState q log) (url_for details href q) in
  let run := fst (_fetch details href (mkState q log)) in
  (forall reason,
     Response.raise_for_status res = Some reason ->
     (Response.status_code res = 401 ->
        run = Raise (UnauthorizedError 401 reason (Response.text res)))
     /\ (Response.status_code res <> 401 ->
        run = Raise (HTTPError (Response.status_code res) reason (Response.text res))))
  /\ (Response.raise_for_status res = None ->
      run = match Response.json res with
            | Some data => Ok data
            | None => Raise JSONDecodeError
            end)
  /\ (forall status msg text body,
        res = Response.of_requests status msg text body ->
        (status = 401 -> run = Raise (UnauthorizedError 401 msg text))
        /\ (400 <= status < 600 -> status <> 401 -> run = Raise (HTTPError status msg text))
        /\ (status < 400 \/ 600 <= status ->
            run = match body with
                  | Some data => Ok data
                  | None => Raise JSONDecodeError
                  end)).
Proof.
  intros res run.
  assert (E : run = response_outcome res).
  { subst run. rewrite fetch_run. reflexivity. }
  split; [|split].
  - intros reason R. rewrite E. unfold response_outcome. rewrite R.
    split; intro Hs.
    + rewrite Hs. reflexivity.
    + destruct (Z.eqb_spec (Response.status_code res) 401); [contradiction | reflexivity].
  - intro R. rewrite E. unfold response_outcome. rewrite R. reflexivity.
  - intros status msg text body Hres. rewrite E, Hres.
    unfold response_outcome, Response.of_requests.
    cbn [Response.raise_for_status Response.status_code Response.text Response.json].
    split; [|split].
    + intros ->. reflexivity.
    + intros Hr Hn.
      replace ((400 <=? status) && (status <? 600)) with true.
      2:{ symmetry. apply andb_true_iff. split; [apply Z.leb_le | apply Z.ltb_lt]; lia. }
      destruct (Z.eqb_spec status 401); [contradiction | reflexivity].
    + intro Hr.
      replace ((400 <=? status) && (status <? 600)) with false; [reflexivity|].
      symmetry. apply andb_false_iff.
      destruct Hr; [left; apply Z.leb_gt | right; apply Z.ltb_ge]; lia.
Qed.

Lemma fetch_error_conditions_witness :
  fst (_fetch false None (Samples.fresh (Samples.rejecting 401 "Unauthorized body")))
  = Raise (UnauthorizedError 401 "error" "Unauthorized body")
  /\ fst (_fetch false None (Samples.fresh (Samples.rejecting 500 "Server error body")))
     = Raise (HTTPError 500 "error" "Server error body")
  /\ fst (_fetch false None
            (Samples.fresh
               (Samples.answering
                  (Response.of_requests 503 "Service Unavailable" "busy" None))))
     = Raise (HTTPError 503 "Service Unavailable" "busy").
Proof.
  split; [|split].
  - refine (proj1 (proj1 (fetch_error_conditions
                            (self (Samples.fresh (Samples.rejecting 401 "Unauthorized body")))
                            [] false None) "error" eq_refl) eq_refl).
  - refine (proj2 (proj1 (fetch_error_conditions
                            (self (Samples.fresh (Samples.rejecting 500 "Server error body")))
                            [] false None) "error" eq_refl) _).
    discriminate.
  - refine (proj1 (proj2 (proj2 (proj2 (fetch_error_conditions
             (self (Samples.fresh
                      (Samples.answering
                         (Response.of_requests 503 "Service Unavailable" "busy" None))))
             [] false None)) 503 "Service Unavailable" "busy" None eq_refl)) _ _).
    + lia.
    + discriminate.
Defined.

(** C5 as stated fails: 304 is not a 2xx status, [raise_for_status] lets it
    pass, and [_fetch] returns the decoded body instead of raising. *)
Lemma fetch_accepts_not_modified :
  ~ (forall (q : QuerySet.t) (log : list string) (details : bool) (href : option string),
       let res := answer (mkState q log) (url_for details href q) in
       ~ (200 <= Response.status_code res < 300) ->
       exists reason,
         fst (_fetch details href (mkState q log))
         = Raise ((if Response.status_code res =? 401 then UnauthorizedError else HTTPError)
                    (Response.status_code res) reason (Response.text res))).
Proof.
  intro H.
  destruct (H (self (Samples.fresh
                       (Samples.answering
                          (Response.of_requests 304 "Not Modified" EmptyString
                             (Some (PyDict []))))))
              []%list false None) as (reason & E).
  - cbn. lia.
  - vm_compute in E. discriminate E.
Qed.

(** C6: the URL built for an explicit href is [http://], the server name and
    the href, whatever the protocol and the port of the connection are; on an
    [https] connection the protocol of the connection is thus not kept, while
    [base_base_url], which [Project.delete] resolves an href against, has it. *)
Theorem href_url_drops_protocol :
  (forall (q : QuerySet.t) (log : list string) (details : bool) (h : string),
     _get_url details (Some h) (mkState q log)
     = (Ok ("http://" ++ TeamCity.server (teamcity q) ++ h), mkState q log))
  /\ (let tc := Samples.secure (Samples.serving PyNone) in
      let st := mkState (ProjectQuerySet.__init__ tc) [] in
      TeamCity.protocol tc = "https"
      /\ fst (_get_url false (Some "/app/rest/projects/id:X") st)
         = Ok "http://tc.example.com/app/rest/projects/id:X"
      /\ requests (snd (_fetch false (Some "/app/rest/projects/id:X") st))
         = ["http://tc.example.com/app/rest/projects/id:X"]
      /\ TeamCity.base_base_url tc ++ "/app/rest/projects/id:X"
         = "https://tc.example.com/app/rest/projects/id:X").
Proof.
  split.
  - intros q log details h. now rewrite get_url_run.
  - repeat split.
Qed.

End Fetch.

(** ** Indexing *)

Section Indexing.

Import QuerySet.

Lemma entity_from_dict_ok (fields : list (string * PyVal)) (q : QuerySet.t) :
  exists p, ProjectQuerySet.entity_from_dict (PyDict fields) q = Ok p.
Proof. eexists. reflexivity. Qed.

Lemma islice_next_entities (q : QuerySet.t) (ds : list PyVal) :
  forallb is_dict ds = true ->
  forall n,
    islice_next (map (fun d => ProjectQuerySet.entity_from_dict d q) ds) n
    = match nth_error ds n with
      | Some d => ProjectQuerySet.entity_from_dict d q
      | None => Raise StopIteration
      end.
Proof.
  induction ds as [|d ds IH]; intros H n.
  - destruct n; reflexivity.
  - cbn [forallb] in H. apply andb_true_iff in H as [Hd Hds].
    destruct d; try discriminate Hd.
    destruct (entity_from_dict_ok fields q) as [p Hp].
    cbn [map islice_next]. rewrite Hp.
    destruct n as [|n]; cbn [nth_error]; [now rewrite Hp|].
    apply IH, Hds.
Qed.

Lemma iter_run (st st1 : State) (d : PyVal) (ds : list PyVal) :
  _data false None st = (Ok d, st1) ->
  subscript d "project" = Ok (PyList ds) ->
  ProjectQuerySet.__iter__ st
  = (Ok (map (fun x => ProjectQuerySet.entity_from_dict x (self st1)) ds), st1).
Proof.
  intros D S. unfold ProjectQuerySet.__iter__, bind, lift, read_self, ret.
  rewrite D, S. reflexivity.
Qed.

Lemma getitem_bounds_refused (i : Z) (st : State) :
  i < 0 \/ sys_maxsize <= i ->
  ProjectQuerySet.__getitem__ i st = (Raise ValueError, st).
Proof.
  intro H.
  unfold ProjectQuerySet.__getitem__, QuerySet.__getitem__, try_except.
  unfold bind at 1. unfold islice_bounds.
  replace ((i <? 0) || (i + 1 >? sys_maxsize)) with true; [reflexivity|].
  symmetry. apply orb_true_iff. destruct H as [H|H].
  - left. apply Z.ltb_lt. exact H.
  - right. rewrite Z.gtb_ltb. apply Z.ltb_lt. lia.
Qed.

(** C7 (amended): over a payload whose [project] list holds [n] entity
    dicts, and for an index [islice] accepts (from 0 and below
    [sys.maxsize]), indexing at [i < n] returns the entity made from the
    [i]-th dict, and indexing at [i >= n] raises [StopIteration], the
    exhaustion of the sequence.  Any other integer index, negative or from
    [sys.maxsize] on, raises [ValueError] before anything is fetched. *)
Theorem getitem_index (st st1 : State) (d : PyVal) (ds : list PyVal) (i : Z)
    (Hdata : _data false None st = (Ok d, st1))
    (Hlist : subscript d "project" = Ok (PyList ds))
    (Hdicts : forallb is_dict ds = true) :
  (0 <= i < sys_maxsize ->
     (i < Z.of_nat (length ds) ->
        exists x p,
          nth_error ds (Z.to_nat i) = Some x
          /\ ProjectQuerySet.entity_from_dict x (self st1) = Ok p
          /\ ProjectQuerySet.__getitem__ i st = (Ok p, st1))
     /\ (Z.of_nat (length ds) <= i ->
         ProjectQuerySet.__getitem__ i st = (Raise StopIteration, st1)))
  /\ (i < 0 \/ sys_maxsize <= i ->
      ProjectQuerySet.__getitem__ i st = (Raise ValueError, st)).
Proof.
  split; [|apply getitem_bounds_refused].
  intro Hi.
  assert (E : ProjectQuerySet.__getitem__ i st
              = (match nth_error ds (Z.to_nat i) with
                 | Some x => ProjectQuerySet.entity_from_dict x (self st1)
                 | None => Raise StopIteration
                 end, st1)).
  { unfold ProjectQuerySet.__getitem__, QuerySet.__getitem__, try_except.
    unfold bind at 1. unfold islice_bounds.
    replace (i <? 0) with false by (symmetry; apply Z.ltb_ge; lia).
    replace (i + 1 >? sys_maxsize) with false
      by (symmetry; rewrite Z.gtb_ltb; apply Z.ltb_ge; lia).
    cbn [orb]. unfold ret at 1. unfold bind at 1.
    rewrite (iter_run _ _ _ _ Hdata Hlist). unfold lift.
    rewrite (islice_next_entities _ _ Hdicts).
    destruct (nth_error ds (Z.to_nat i)) as [x|] eqn:N; [|reflexivity].
    assert (Hx : is_dict x = true).
    { apply nth_error_In in N. rewrite forallb_forall in Hdicts. now apply Hdicts. }
    destruct x; try discriminate Hx.
    destruct (entity_from_dict_ok fields (self st1)) as [p Hp]. rewrite Hp. reflexivity. }
  split; intro Hn.
  - destruct (nth_error ds (Z.to_nat i)) as [x|] eqn:N.
    + assert (Hx : is_dict x = true).
      { apply nth_error_In in N. rewrite forallb_forall in Hdicts. now apply Hdicts. }
      destruct x; try discriminate Hx.
      destruct (entity_from_dict_ok fields (self st1)) as [p Hp].
      exists (PyDict fields), p. repeat split; [exact Hp|]. rewrite E, Hp. reflexivity.
    + apply nth_error_None in N. lia.
  - rewrite E.
    replace (nth_error ds (Z.to_nat i)) with (@None PyVal); [reflexivity|].
    symmetry. apply nth_error_None. lia.
Qed.

Lemma getitem_index_witness :
  (exists x p,
     nth_error [PyDict [("id", PyStr "A")]; PyDict [("id", PyStr "B")]] (Z.to_nat 0) = Some x
     /\ ProjectQuerySet.entity_from_dict x
          (self (snd (_data false None (Samples.fresh (Samples.serving Samples.two_projects)))))
        = Ok p
     /\ ProjectQuerySet.__getitem__ 0 (Samples.fresh (Samples.serving Samples.two_projects))
        = (Ok p, snd (_data false None (Samples.fresh (Samples.serving Samples.two_projects)))))
  /\ ProjectQuerySet.__getitem__ 2 (Samples.fresh (Samples.serving Samples.two_projects))
     = (Raise StopIteration,
        snd (_data false None (Samples.fresh (Samples.serving Samples.two_projects))))
  /\ ProjectQuerySet.__getitem__ (2 ^ 63) (Samples.fresh (Samples.serving Samples.two_projects))
     = (Raise ValueError, Samples.fresh (Samples.serving Samples.two_projects)).
Proof.
  assert (B0 : 0 <= 0 < sys_maxsize) by (unfold sys_maxsize; lia).
  assert (B2 : 0 <= 2 < sys_maxsize) by (unfold sys_maxsize; lia).
  assert (B3 : 2 ^ 63 < 0 \/ sys_maxsize <= 2 ^ 63) by (unfold sys_maxsize; lia).
  split; [|split].
  - refine (proj1 (proj1 (getitem_index (Samples.fresh (Samples.serving Samples.two_projects)) _
                            Samples.two_projects _ 0 eq_refl eq_refl eq_refl) B0) _).
    cbn. lia.
  - refine (proj2 (proj1 (getitem_index (Samples.fresh (Samples.serving Samples.two_projects)) _
                            Samples.two_projects _ 2 eq_refl eq_refl eq_refl) B2) _).
    cbn. lia.
  - exact (proj2 (getitem_index (Samples.fresh (Samples.serving Samples.two_projects))
                    (snd (_data false None
                            (Samples.fresh (Samples.serving Samples.two_projects))))
                    Samples.two_projects _ (2 ^ 63) eq_refl eq_refl eq_refl) B3).
Defined.

(** C7 as stated fails: the index -1 is below [n], yet no entity is
    returned; [islice] refuses it with [ValueError].  (So it does an index
    from [sys.maxsize] on, where the claim expects the exhaustion.) *)
Lemma getitem_negative_index :
  ~ (forall (st st1 : State) (d : PyVal) (ds : list PyVal) (i : Z),
       _data false None st = (Ok d, st1) ->
       subscript d "project" = Ok (PyList ds) ->
       forallb is_dict ds = true ->
       (i < Z.of_nat (length ds) ->
          exists p, fst (ProjectQuerySet.__getitem__ i st) = Ok p)
       /\ (Z.of_nat (length ds) <= i ->
           fst (ProjectQuerySet.__getitem__ i st) = Raise StopIteration)).
Proof.
  intro H.
  destruct (H (Samples.fresh (Samples.serving Samples.two_projects)) _
              Samples.two_projects _ (-1) eq_refl eq_refl eq_refl) as [H1 _].
  destruct H1 as [p E]; [cbn; lia|].
  vm_compute in E. discriminate E.
Qed.

End Indexing.

(** ** Fetching and the memoized payload, beyond the length path *)

Section FetchAndPayload.

Import QuerySet.

(** Every [_fetch] issues exactly one GET, records its URL in [self.url] and
    leaves the other attributes alone, whatever the outcome; it returns a
    payload exactly when the response passes [raise_for_status] and decodes. *)
Theorem fetch_issues_one_request (details : bool) (href : option string) (st : State) :
  let u := url_for details href (self st) in
  let st' := snd (_fetch details href st) in
  requests st' = (requests st ++ [u])%list
  /\ url (self st') = Some u
  /\ _data_dict (self st') = _data_dict (self st)
  /\ _locator (self st') = _locator (self st)
  /\ base_url (self st') = base_url (self st)
  /\ teamcity (self st') = teamcity (self st)
  /\ (forall d,
        fst (_fetch details href st) = Ok d
        <-> Response.raise_for_status (answer st u) = None
            /\ Response.json (answer st u) = Some d).
Proof.
  intros u st'. subst st'. rewrite fetch_run. fold u. cbn [fst snd self requests].
  repeat (split; [reflexivity|]).
  intro d. unfold response_outcome.
  destruct (Response.raise_for_status (answer st u)) as [reason|].
  - split; [|intros [E _]; discriminate E].
    destruct (_ =? 401); intro E; discriminate E.
  - destruct (Response.json (answer st u)) as [d'|].
    + split; [intro E; inversion E; now split | intros [_ E]; now inversion E].
    + split; [intro E; discriminate E | intros [_ E]; discriminate E].
Qed.

(** Once a truthy payload is memoized, [_data] returns it without a request
    and without looking at [details] or [href]: an explicit href is ignored. *)
Theorem data_ignores_arguments_once_fetched
    (details details' : bool) (href href' : option string) (st : State)
    (H : truthy (_data_dict (self st)) = true) :
  _data details href st = (Ok (_data_dict (self st)), st)
  /\ _data details href st = _data details' href' st.
Proof.
  rewrite !(data_run_cached _ _ _ H). split; reflexivity.
Qed.

Lemma data_ignores_arguments_once_fetched_witness :
  let st := Scenarios.fetched (Samples.serving Samples.one_project) Samples.two_projects in
  _data true (Some "/app/rest/projects/id:A") st = (Ok Samples.two_projects, st).
Proof.
  intro st.
  exact (proj1 (data_ignores_arguments_once_fetched
                  true false (Some "/app/rest/projects/id:A") None st eq_refl)).
Defined.

(** A falsy payload (an empty dict or list, [null], 0, ...) is returned but
    does not count as memoized: the query set stays unfetched and the next
    [_data] sends the same request again. *)
Theorem falsy_payload_is_fetched_again (st : State) (d : PyVal)
    (Hm : truthy (_data_dict (self st)) = false)
    (Hd : fst (_data false None st) = Ok d)
    (Hf : truthy d = false) :
  let u := url_for false None (self st) in
  let st1 := snd (_data false None st) in
  _data_dict (self st1) = d
  /\ requests st1 = (requests st ++ [u])%list
  /\ requests (snd (_data false None st1)) = (requests st ++ [u; u])%list.
Proof.
  intros u st1.
  assert (E : st1 = mkState (with_data_dict (with_url (self st) u) d)
                      (requests st ++ [u])%list).
  { subst st1. revert Hd. rewrite (data_run_fetch _ _ _ Hm). fold u.
    destruct (response_outcome (answer st u)) as [d'|e]; cbn [fst snd].
    - intro E. inversion E. reflexivity.
    - intro E. discriminate E. }
  rewrite E. cbn [self requests with_data_dict _data_dict].
  split; [reflexivity|]. split; [reflexivity|].
  pose proof (data_state_unfetched false None
                (mkState (with_data_dict (with_url (self st) u) d) (requests st ++ [u])%list)
                Hf) as (R & _).
  rewrite R. cbn [self requests]. rewrite <- app_assoc. reflexivity.
Qed.

Lemma falsy_payload_is_fetched_again_witness :
  let st := Samples.fresh (Samples.serving (PyDict [])) in
  requests (snd (_data false None (snd (_data false None st))))
  = ["http://tc/guestAuth/app/rest/projects/"; "http://tc/guestAuth/app/rest/projects/"].
Proof.
  intro st.
  exact (proj2 (proj2 (falsy_payload_is_fetched_again st (PyDict []) eq_refl eq_refl eq_refl))).
Defined.

(** [filter] does not invalidate anything: on a fetched query set a [len]
    after a [filter] issues no request and still reads the count of the
    payload fetched before the filter. *)
Theorem filter_keeps_memoized_payload (kwargs : ProjectQuerySet.Criteria) (st : State)
    (H : truthy (_data_dict (self st)) = true) :
  bind (ProjectQuerySet.filter kwargs) (fun _ => __len__) st
  = (subscript (_data_dict (self st)) "count",
     mkState (with_locator (self st) (ProjectQuerySet.filtered kwargs (_locator (self st))))
       (requests st)).
Proof.
  unfold bind at 1. rewrite filter_run. unfold __len__, bind, lift.
  rewrite data_run_cached by exact H. reflexivity.
Qed.

Lemma filter_keeps_memoized_payload_witness :
  let st := Scenarios.fetched (Samples.serving Samples.one_project) Samples.two_projects in
  fst (bind (ProjectQuerySet.filter (ProjectQuerySet.mkCriteria (Some "A") None))
         (fun _ => __len__) st) = Ok (PyInt 2)
  /\ requests (snd (bind (ProjectQuerySet.filter (ProjectQuerySet.mkCriteria (Some "A") None))
                      (fun _ => __len__) st)) = requests st.
Proof.
  intro st.
  rewrite (filter_keeps_memoized_payload (ProjectQuerySet.mkCriteria (Some "A") None) st eq_refl).
  split; reflexivity.
Defined.

(** [filter] with both criteria is [filter(id=...)] followed by
    [filter(name=...)], in that order whatever the call site wrote; without
    criteria it changes nothing; it never fails, never issues a request and
    never touches the payload. *)
Theorem filter_composes (i n : option string) (st : State) :
  ProjectQuerySet.filter (ProjectQuerySet.mkCriteria i n) st
  = bind (ProjectQuerySet.filter (ProjectQuerySet.mkCriteria i None))
      (fun _ => ProjectQuerySet.filter (ProjectQuerySet.mkCriteria None n)) st
  /\ ProjectQuerySet.filter ProjectQuerySet.no_criteria st = (Ok tt, st)
  /\ fst (ProjectQuerySet.filter (ProjectQuerySet.mkCriteria i n) st) = Ok tt
  /\ requests (snd (ProjectQuerySet.filter (ProjectQuerySet.mkCriteria i n) st)) = requests st
  /\ _data_dict (self (snd (ProjectQuerySet.filter (ProjectQuerySet.mkCriteria i n) st)))
     = _data_dict (self st).
Proof.
  destruct st as [[tc b l d u] log].
  destruct i as [i|], n as [n|]; repeat split.
Qed.

End FetchAndPayload.

(** ** get, beyond the request it issues *)

Section GetOutcome.

Import QuerySet.

Lemma get_detail_eq (kwargs : ProjectQuerySet.Criteria) (q : QuerySet.t) (log : list string) :
  let l' := ProjectQuerySet.filtered kwargs (_locator q) in
  let u := base_url q ++ Locator.render l' in
  let q1 := with_url (with_data_dict (with_locator q l') PyNone) u in
  ProjectQuerySet.get false false kwargs (mkState q log)
  = match response_outcome (answer (mkState q log) u) with
    | Raise e => (Raise e, mkState q1 (log ++ [u])%list)
    | Ok d =>
        (match ProjectQuerySet.entity_from_dict d (with_data_dict q1 d) with
         | Ok p => Ok (inr p)
         | Raise e => Raise e
         end,
         mkState (with_data_dict q1 d) (log ++ [u])%list)
    end.
Proof.
  intros l' u q1. rewrite get_run_unchecked. cbn [self requests]. fold l'.
  change (bind (_data true None)
            (fun d => bind read_self
               (fun q0 => bind (lift (ProjectQuerySet.entity_from_dict d q0))
                  (fun e => ret (inr e)))))
    with ProjectQuerySet.detail_fetch.
  rewrite detail_fetch_eq by reflexivity.
  cbn [self requests base_url _locator with_data_dict with_locator]. fold u.
  reflexivity.
Qed.

Lemma entity_from_dict_payload (d : PyVal) (q : QuerySet.t) (p : Project.t) :
  ProjectQuerySet.entity_from_dict d q = Ok p ->
  Project._data_dict p = d /\ is_dict d = true
  /\ Project.teamcity p = Some (teamcity q).
Proof.
  unfold ProjectQuerySet.entity_from_dict, Project.from_dict.
  destruct d; cbn; try discriminate.
  intro E. inversion E. cbn. repeat split.
Qed.

(** A [get] whose detail request is rejected raises the HTTP condition and
    leaves the query set without any payload: the one memoized before the
    call is gone. *)
Theorem failed_get_drops_payload
    (kwargs : ProjectQuerySet.Criteria) (q : QuerySet.t) (log : list string)
    (reason : string) :
  let u := base_url q ++ Locator.render (ProjectQuerySet.filtered kwargs (_locator q)) in
  let res := answer (mkState q log) u in
  let r := ProjectQuerySet.get false false kwargs (mkState q log) in
  Response.raise_for_status res = Some reason ->
  fst r = Raise ((if Response.status_code res =? 401 then UnauthorizedError else HTTPError)
                   (Response.status_code res) reason (Response.text res))
  /\ _data_dict (self (snd r)) = PyNone
  /\ requests (snd r) = (log ++ [u])%list.
Proof.
  intros u res r R. subst r. rewrite get_detail_eq. fold u. fold res.
  unfold response_outcome. rewrite R.
  destruct (Response.status_code res =? 401); repeat split.
Qed.

Lemma failed_get_drops_payload_witness :
  let st := Scenarios.fetched (Samples.rejecting 500 "down") Samples.two_projects in
  let r := ProjectQuerySet.get false false (ProjectQuerySet.mkCriteria (Some "A") None) st in
  fst r = Raise (HTTPError 500 "error" "down") /\ _data_dict (self (snd r)) = PyNone.
Proof.
  intros st r.
  destruct (failed_get_drops_payload (ProjectQuerySet.mkCriteria (Some "A") None)
              (self st) (requests st) "error" eq_refl) as (H1 & H2 & _).
  split; [exact H1 | exact H2].
Defined.

(** After a [get] that returned an entity, the payload of the entity is the
    one the query set memoizes; if it is truthy, a later [len] issues no
    request and looks for [count] in that detail payload. *)
Theorem get_memoizes_detail_payload
    (kwargs : ProjectQuerySet.Criteria) (q : QuerySet.t) (log : list string)
    (p : Project.t) (st1 : State)
    (H : ProjectQuerySet.get false false kwargs (mkState q log) = (Ok (inr p), st1)) :
  _data_dict (self st1) = Project._data_dict p
  /\ Project.teamcity p = Some (teamcity q)
  /\ (truthy (Project._data_dict p) = true ->
      __len__ st1 = (subscript (Project._data_dict p) "count", st1)).
Proof.
  revert H. rewrite get_detail_eq.
  destruct (response_outcome _) as [d|e]; [|discriminate].
  destruct (ProjectQuerySet.entity_from_dict d _) as [p0|e] eqn:F; [|discriminate].
  intro E. inversion E; subst. clear E.
  apply entity_from_dict_payload in F as (Fd & _ & Ft). cbn [teamcity with_data_dict with_url with_locator] in Ft.
  cbn [self _data_dict with_data_dict]. split; [now rewrite Fd|]. split; [exact Ft|].
  intro T. unfold __len__, bind, lift.
  rewrite data_run_cached by (cbn [self _data_dict with_data_dict]; now rewrite <- Fd).
  cbn [self _data_dict with_data_dict]. now rewrite Fd.
Qed.

Lemma get_memoizes_detail_payload_witness :
  let s := Samples.serving (PyDict [("id", PyStr "A")]) in
  let r := ProjectQuerySet.get false false (ProjectQuerySet.mkCriteria (Some "A") None)
             (Samples.fresh s) in
  __len__ (snd r) = (Raise (KeyError "count"), snd r).
Proof.
  intros s r.
  exact (proj2 (proj2 (get_memoizes_detail_payload
                         (ProjectQuerySet.mkCriteria (Some "A") None)
                         (self (Samples.fresh s)) []
                         (Project.mk (PyStr "A") PyNone PyNone PyNone PyNone PyNone
                            (Some (Samples.guest s)) (PyDict [("id", PyStr "A")]))
                         (snd r) eq_refl))
           eq_refl).
Defined.

End GetOutcome.

(** ** Indexing and iteration, beyond well-formed payloads *)

Section IndexingEdges.

Import QuerySet.

(** An index that [islice] refuses (negative, or [sys.maxsize] and above)
    gives [ValueError] before the query set is touched: no request is issued
    and the state is unchanged, fetched or not. *)
Theorem getitem_refused_index (i : Z) (st : State)
    (H : i < 0 \/ sys_maxsize <= i) :
  ProjectQuerySet.__getitem__ i st = (Raise ValueError, st).
Proof.
  unfold ProjectQuerySet.__getitem__, QuerySet.__getitem__, try_except.
  unfold bind at 1. unfold islice_bounds.
  replace ((i <? 0) || (i + 1 >? sys_maxsize)) with true; [reflexivity|].
  symmetry. apply orb_true_iff. destruct H as [H|H].
  - left. apply Z.ltb_lt. exact H.
  - right. rewrite Z.gtb_ltb. apply Z.ltb_lt. lia.
Qed.

Lemma getitem_refused_index_witness :
  ProjectQuerySet.__getitem__ (-1) (Samples.fresh (Samples.serving Samples.two_projects))
  = (Raise ValueError, Samples.fresh (Samples.serving Samples.two_projects)).
Proof.
  apply getitem_refused_index. left. lia.
Defined.

Lemma iter_shape (st st1 : State) (g : list (result Project.t)) :
  ProjectQuerySet.__iter__ st = (Ok g, st1) ->
  exists d items ds,
    _data false None st = (Ok d, st1)
    /\ subscript d "project" = Ok items
    /\ py_iter items = Ok ds
    /\ g = map (fun x => ProjectQuerySet.entity_from_dict x (self st1)) ds.
Proof.
  unfold ProjectQuerySet.__iter__, bind, lift, read_self, ret.
  destruct (_data false None st) as [[d|e] st'] eqn:D; [|discriminate].
  destruct (subscript d "project") as [items|e] eqn:S; [|discriminate].
  destruct (py_iter items) as [ds|e] eqn:I; [|discriminate].
  intro E. inversion E; subst. exists d, items, ds. repeat split; assumption.
Qed.

Lemma islice_next_no_type_error (q : QuerySet.t) (ds : list PyVal) (n : nat) :
  islice_next (map (fun x => ProjectQuerySet.entity_from_dict x q) ds) n <> Raise TypeError.
Proof.
  revert n. induction ds as [|d ds IH]; intro n; cbn [map islice_next]; [discriminate|].
  destruct (ProjectQuerySet.entity_from_dict d q) as [p|e] eqn:F.
  - destruct n; [discriminate | apply IH].
  - apply entity_from_dict_raises in F. subst e. discriminate.
Qed.

(** The [except TypeError] clause of [__getitem__] turns every [TypeError]
    of the lookup into the [AttributeError] of [index.start]: an integer
    index never gives [TypeError]; a payload that cannot be subscripted or
    iterated shows up as [AttributeError]; a missing [project] key still
    gives its [KeyError]. *)
Theorem getitem_masks_type_error (i : Z) (st : State) :
  fst (ProjectQuerySet.__getitem__ i st) <> Raise TypeError
  /\ (forall st1, 0 <= i < sys_maxsize ->
        ProjectQuerySet.__iter__ st = (Raise TypeError, st1) ->
        ProjectQuerySet.__getitem__ i st = (Raise AttributeError, st1))
  /\ (forall st1 key, 0 <= i < sys_maxsize ->
        ProjectQuerySet.__iter__ st = (Raise (KeyError key), st1) ->
        ProjectQuerySet.__getitem__ i st = (Raise (KeyError key), st1)).
Proof.
  unfold ProjectQuerySet.__getitem__, QuerySet.__getitem__, try_except.
  split; [|split].
  - destruct (bind _ _ st) as [[p|e] st'] eqn:B; cbn [fst]; [discriminate|].
    destruct e; cbn; discriminate.
  - intros st1 Hi It. unfold bind at 1. unfold islice_bounds.
    replace ((i <? 0) || (i + 1 >? sys_maxsize)) with false.
    2:{ symmetry. apply orb_false_iff. split; [apply Z.ltb_ge; lia|].
        rewrite Z.gtb_ltb. apply Z.ltb_ge. lia. }
    unfold ret at 1. unfold bind at 1. rewrite It. reflexivity.
  - intros st1 key Hi It. unfold bind at 1. unfold islice_bounds.
    replace ((i <? 0) || (i + 1 >? sys_maxsize)) with false.
    2:{ symmetry. apply orb_false_iff. split; [apply Z.ltb_ge; lia|].
        rewrite Z.gtb_ltb. apply Z.ltb_ge. lia. }
    unfold ret at 1. unfold bind at 1. rewrite It. reflexivity.
Qed.

Lemma getitem_masks_type_error_witness :
  fst (ProjectQuerySet.__iter__ (Samples.fresh (Samples.serving (PyList [PyInt 1]))))
  = Raise TypeError
  /\ fst (ProjectQuerySet.__getitem__ 0 (Samples.fresh (Samples.serving (PyList [PyInt 1]))))
     = Raise AttributeError
  /\ fst (ProjectQuerySet.__getitem__ 0
            (Samples.fresh (Samples.serving (PyDict [("count", PyInt 0)]))))
     = Raise (KeyError "project").
Proof.
  split; [reflexivity|]. split.
  - rewrite (proj1 (proj2 (getitem_masks_type_error 0
                             (Samples.fresh (Samples.serving (PyList [PyInt 1])))))
               (snd (ProjectQuerySet.__iter__
                       (Samples.fresh (Samples.serving (PyList [PyInt 1])))))).
    + reflexivity.
    + unfold sys_maxsize. lia.
    + reflexivity.
  - rewrite (proj2 (proj2 (getitem_masks_type_error 0
                             (Samples.fresh (Samples.serving (PyDict [("count", PyInt 0)])))))
               (snd (ProjectQuerySet.__iter__
                       (Samples.fresh (Samples.serving (PyDict [("count", PyInt 0)])))))
               "project").
    + reflexivity.
    + unfold sys_maxsize. lia.
    + reflexivity.
Defined.

Lemma getitem_run (st st1 : State) (d : PyVal) (ds : list PyVal) (i : Z) :
  _data false None st = (Ok d, st1) ->
  subscript d "project" = Ok (PyList ds) ->
  0 <= i < sys_maxsize ->
  ProjectQuerySet.__getitem__ i st
  = (islice_next (map (fun x => ProjectQuerySet.entity_from_dict x (self st1)) ds)
       (Z.to_nat i), st1).
Proof.
  intros D S Hi.
  unfold ProjectQuerySet.__getitem__, QuerySet.__getitem__, try_except.
  unfold bind at 1. unfold islice_bounds.
  replace ((i <? 0) || (i + 1 >? sys_maxsize)) with false.
  2:{ symmetry. apply orb_false_iff. split; [apply Z.ltb_ge; lia|].
      rewrite Z.gtb_ltb. apply Z.ltb_ge. lia. }
  unfold ret at 1. unfold bind at 1.
  rewrite (iter_run _ _ _ _ D S). unfold lift.
  destruct (islice_next _ _) as [p|e] eqn:N; [reflexivity|].
  destruct e; try reflexivity.
  exfalso. exact (islice_next_no_type_error _ _ _ N).
Qed.

Lemma islice_next_prefix (q : QuerySet.t) (ds : list PyVal) (n : nat) :
  (forallb is_dict (firstn (S n) ds) = true ->
   forall x, nth_error ds n = Some x ->
   islice_next (map (fun y => ProjectQuerySet.entity_from_dict y q) ds) n
   = ProjectQuerySet.entity_from_dict x q)
  /\ (forall k x, (k <= n)%nat -> nth_error ds k = Some x -> is_dict x = false ->
      forallb is_dict (firstn k ds) = true ->
      islice_next (map (fun y => ProjectQuerySet.entity_from_dict y q) ds) n
      = Raise AttributeError).
Proof.
  revert n. induction ds as [|d ds IH]; intro n.
  - split.
    + intros _ x E. destruct n; discriminate E.
    + intros k x _ E. destruct k; discriminate E.
  - split.
    + intros Hp x Hx. cbn [firstn forallb] in Hp. apply andb_true_iff in Hp as [Hd Hp].
      destruct d; try discriminate Hd.
      destruct (entity_from_dict_ok fields q) as [p Fp].
      cbn [map islice_next]. rewrite Fp.
      destruct n as [|n]; cbn [nth_error] in Hx.
      * inversion Hx; subst. now rewrite Fp.
      * exact (proj1 (IH n) Hp x Hx).
    + intros k x Hk Hx Hbad Hp. cbn [map islice_next].
      destruct k as [|k]; cbn [nth_error] in Hx.
      * inversion Hx; subst.
        destruct (ProjectQuerySet.entity_from_dict x q) as [p|e] eqn:F.
        -- apply entity_from_dict_payload in F as (_ & Fd & _). congruence.
        -- apply entity_from_dict_raises in F. now subst e.
      * cbn [firstn forallb] in Hp. apply andb_true_iff in Hp as [Hd Hp].
        destruct d; try discriminate Hd.
        destruct (entity_from_dict_ok fields q) as [p Fp]. rewrite Fp.
        destruct n as [|n]; [lia|].
        apply (proj2 (IH n) k x); [lia | exact Hx | exact Hbad | exact Hp].
Qed.

(** Indexing builds the entities one after the other up to the index and
    looks no further: if the items up to the index are dicts, the entity at
    the index is returned whatever follows; a non-dict item at or before the
    index gives [AttributeError], even when the item at the index is fine. *)
Theorem getitem_builds_only_a_prefix (st st1 : State) (d : PyVal) (ds : list PyVal) (i : Z)
    (Hdata : _data false None st = (Ok d, st1))
    (Hlist : subscript d "project" = Ok (PyList ds))
    (Hi : 0 <= i < sys_maxsize) :
  (forall x, nth_error ds (Z.to_nat i) = Some x ->
     forallb is_dict (firstn (S (Z.to_nat i)) ds) = true ->
     ProjectQuerySet.__getitem__ i st
     = (ProjectQuerySet.entity_from_dict x (self st1), st1)
     /\ exists p, ProjectQuerySet.entity_from_dict x (self st1) = Ok p
                  /\ Project._data_dict p = x)
  /\ (forall k x, (k <= Z.to_nat i)%nat -> nth_error ds k = Some x -> is_dict x = false ->
        forallb is_dict (firstn k ds) = true ->
        ProjectQuerySet.__getitem__ i st = (Raise AttributeError, st1)).
Proof.
  rewrite (getitem_run _ _ _ _ _ Hdata Hlist Hi). split.
  - intros x Hx Hp.
    rewrite (proj1 (islice_next_prefix (self st1) ds (Z.to_nat i)) Hp x Hx).
    split; [reflexivity|].
    assert (Dx : is_dict x = true).
    { rewrite forallb_forall in Hp. apply Hp.
      apply nth_error_In with (n := Z.to_nat i).
      rewrite nth_error_firstn.
      destruct (Nat.ltb_spec (Z.to_nat i) (S (Z.to_nat i))); [exact Hx | lia]. }
    destruct x; try discriminate Dx.
    destruct (entity_from_dict_ok fields (self st1)) as [p Fp].
    exists p. split; [exact Fp|]. now apply entity_from_dict_payload in Fp.
  - intros k x Hk Hx Hbad Hp.
    now rewrite (proj2 (islice_next_prefix (self st1) ds (Z.to_nat i)) k x Hk Hx Hbad Hp).
Qed.

End IndexingEdges.

Lemma getitem_builds_only_a_prefix_witness :
  let st := Samples.fresh (Samples.serving Samples.ragged_projects) in
  ProjectQuerySet.__getitem__ 0 st
  = (ProjectQuerySet.entity_from_dict (PyDict [("id", PyStr "A")])
       (QuerySet.self (snd (QuerySet._data false None st))),
     snd (QuerySet._data false None st))
  /\ ProjectQuerySet.__getitem__ 2 st
     = (Raise AttributeError, snd (QuerySet._data false None st)).
Proof.
  intro st.
  assert (B : 0 <= 0 < sys_maxsize /\ 0 <= 2 < sys_maxsize) by (unfold sys_maxsize; lia).
  destruct B as [B0 B2].
  split.
  - exact (proj1 (proj1 (getitem_builds_only_a_prefix st _ Samples.ragged_projects _ 0
                           eq_refl eq_refl B0)
                    (PyDict [("id", PyStr "A")]) eq_refl eq_refl)).
  - exact (proj2 (getitem_builds_only_a_prefix st _ Samples.ragged_projects _ 2
                    eq_refl eq_refl B2)
             1%nat (PyInt 7) (le_S _ _ (le_n 1)) eq_refl eq_refl eq_refl).
Defined.

(** ** Iteration *)

Section Iteration.

Import QuerySet.

Lemma for_each_entities (q : QuerySet.t) (ds : list PyVal) :
  (forallb is_dict ds = true ->
   exists ps,
     for_each (map (fun x => ProjectQuerySet.entity_from_dict x q) ds) = Ok ps
     /\ map Project._data_dict ps = ds)
  /\ (forallb is_dict ds = false ->
      for_each (map (fun x => ProjectQuerySet.entity_from_dict x q) ds)
      = Raise AttributeError).
Proof.
  induction ds as [|d ds [IHt IHf]].
  - split; [intros _; exists []; split; reflexivity | discriminate].
  - cbn [forallb map for_each].
    destruct (ProjectQuerySet.entity_from_dict d q) as [p|e] eqn:F.
    + apply entity_from_dict_payload in F as (Fd & Fi & _). rewrite Fi. cbn [andb].
      split; intro H.
      * destruct (IHt H) as (ps & E & M). rewrite E. exists (p :: ps).
        split; [reflexivity|]. cbn [map]. now rewrite Fd, M.
      * now rewrite (IHf H).
    + pose proof (entity_from_dict_raises _ _ _ F) as Ee. subst e.
      split; [|reflexivity].
      intro H. apply andb_true_iff in H as [Hd _]. destruct d; try discriminate Hd.
      destruct (entity_from_dict_ok fields q) as [p Fp]. congruence.
Qed.

(** A [for] loop over the query set goes through the [project] list of the
    payload, one entity per item and in the order of the list; the [count]
    field is not consulted.  If some item is not a dict the loop ends in
    [AttributeError]. *)
Theorem iteration_follows_project_list (st st1 : State) (d : PyVal) (ds : list PyVal)
    (Hdata : _data false None st = (Ok d, st1))
    (Hlist : subscript d "project" = Ok (PyList ds)) :
  exists g,
    ProjectQuerySet.__iter__ st = (Ok g, st1)
    /\ length g = length ds
    /\ (forallb is_dict ds = true ->
        exists ps, for_each g = Ok ps
                   /\ length ps = length ds
                   /\ map Project._data_dict ps = ds)
    /\ (forallb is_dict ds = false -> for_each g = Raise AttributeError).
Proof.
  exists (map (fun x => ProjectQuerySet.entity_from_dict x (self st1)) ds).
  split; [exact (iter_run _ _ _ _ Hdata Hlist)|].
  split; [apply length_map|].
  destruct (for_each_entities (self st1) ds) as [Ht Hf].
  split; [|exact Hf].
  intro H. destruct (Ht H) as (ps & E & M). exists ps.
  split; [exact E|]. split; [|exact M].
  rewrite <- M. now rewrite length_map.
Qed.

Lemma iteration_follows_project_list_witness :
  exists g,
    ProjectQuerySet.__iter__ (Samples.fresh (Samples.serving Samples.ragged_projects))
    = (Ok g, snd (_data false None (Samples.fresh (Samples.serving Samples.ragged_projects))))
    /\ length g = 3%nat.
Proof.
  destruct (iteration_follows_project_list
              (Samples.fresh (Samples.serving Samples.ragged_projects)) _
              Samples.ragged_projects _ eq_refl eq_refl) as (g & H1 & H2 & _).
  exists g. split; [exact H1 | exact H2].
Defined.

Lemma iter_stable (st st1 : State) (g : list (result Project.t)) :
  ProjectQuerySet.__iter__ st = (Ok g, st1) ->
  truthy (_data_dict (self st1)) = true
  /\ ProjectQuerySet.__iter__ st1 = (Ok g, st1).
Proof.
  intro It. destruct (iter_shape _ _ _ It) as (d & items & ds & D & S & I & G).
  assert (Td : truthy d = true).
  { destruct d; try discriminate S. cbn in S. destruct fields; [discriminate|reflexivity]. }
  assert (M : _data_dict (self st1) = d).
  { destruct (truthy (_data_dict (self st))) eqn:T.
    - rewrite (data_run_cached _ _ _ T) in D. inversion D; subst. reflexivity.
    - rewrite (data_run_fetch _ _ _ T) in D.
      destruct (response_outcome _); inversion D; subst. reflexivity. }
  split; [now rewrite M|].
  unfold ProjectQuerySet.__iter__, bind, lift, read_self, ret.
  rewrite data_run_cached by now rewrite M.
  rewrite M, S, I, G. reflexivity.
Qed.

(** [len] and iteration share one payload: after a [len] that returned, an
    iteration issues no request, and after an iteration that started, a
    [len] issues none and iterating again gives the same items. *)
Theorem len_and_iteration_share_payload (st st1 : State) :
  (forall n, len st = (Ok n, st1) -> snd (ProjectQuerySet.__iter__ st1) = st1)
  /\ (forall g, ProjectQuerySet.__iter__ st = (Ok g, st1) ->
        snd (len st1) = st1 /\ ProjectQuerySet.__iter__ st1 = (Ok g, st1)).
Proof.
  split.
  - intros n L. rewrite iter_state.
    assert (T : truthy (_data_dict (self st1)) = true).
    { revert L. unfold len, __len__, bind, lift.
      destruct (truthy (_data_dict (self st))) eqn:T.
      - rewrite (data_run_cached _ _ _ T).
        destruct (subscript _ _); [|discriminate].
        destruct (len_protocol _); [|discriminate]. intro E. inversion E; subst. exact T.
      - rewrite (data_run_fetch _ _ _ T).
        destruct (response_outcome _) as [d|e]; [|discriminate].
        destruct (subscript d "count") eqn:S; [|discriminate].
        destruct (len_protocol _); [|discriminate]. intro E. inversion E; subst.
        cbn [self _data_dict with_data_dict].
        destruct d; try discriminate S. cbn in S. destruct fields; [discriminate|reflexivity]. }
    now rewrite (data_run_cached _ _ _ T).
  - intros g It. destruct (iter_stable _ _ _ It) as [T It1].
    split; [|exact It1].
    rewrite len_state. now rewrite (data_run_cached _ _ _ T).
Qed.

Lemma len_and_iteration_share_payload_witness :
  let st := Samples.fresh (Samples.serving Samples.two_projects) in
  requests (snd (ProjectQuerySet.__iter__ (snd (len st))))
  = ["http://tc/guestAuth/app/rest/projects/"].
Proof.
  intro st.
  rewrite (proj1 (len_and_iteration_share_payload st (snd (len st))) 2 eq_refl).
  reflexivity.
Defined.

(** [__next__] makes a new generator at every call, so it does not advance:
    once it has returned an entity, every further call returns that same
    first entity, without a request; on an empty [project] list it raises
    [StopIteration]. *)
Theorem next_never_advances (st st1 : State) :
  (forall p, ProjectQuerySet.__next__ st = (Ok p, st1) ->
     ProjectQuerySet.__next__ st1 = (Ok p, st1))
  /\ (forall d, _data false None st = (Ok d, st1) ->
        subscript d "project" = Ok (PyList []) ->
        ProjectQuerySet.__next__ st = (Raise StopIteration, st1))
  /\ (forall d x rest, _data false None st = (Ok d, st1) ->
        subscript d "project" = Ok (PyList (x :: rest)) ->
        ProjectQuerySet.__next__ st = (ProjectQuerySet.entity_from_dict x (self st1), st1)).
Proof.
  unfold ProjectQuerySet.__next__, QuerySet.__next__.
  split; [|split].
  - intros p N. unfold bind, lift in N.
    destruct (ProjectQuerySet.__iter__ st) as [[g|e] st'] eqn:It; [|discriminate].
    assert (st' = st1) by congruence. subst st'.
    destruct (iter_stable _ _ _ It) as [_ It1].
    unfold bind, lift. rewrite It1. exact N.
  - intros d D S. unfold bind, lift. rewrite (iter_run _ _ _ _ D S). reflexivity.
  - intros d x rest D S. unfold bind, lift. rewrite (iter_run _ _ _ _ D S). reflexivity.
Qed.

Lemma next_never_advances_witness :
  let st := Samples.fresh (Samples.serving Samples.two_projects) in
  ProjectQuerySet.__next__ (snd (ProjectQuerySet.__next__ st))
  = ProjectQuerySet.__next__ st.
Proof.
  intro st.
  exact (proj1 (next_never_advances st (snd (ProjectQuerySet.__next__ st)))
           (Project.mk (PyStr "A") PyNone PyNone PyNone PyNone PyNone
              (Some (Samples.guest (Samples.serving Samples.two_projects)))
              (PyDict [("id", PyStr "A")]))
           eq_refl).
Defined.

End Iteration.

(** ** Entities, managers and the connection *)

Section Entities.

Import QuerySet.

(** [Project.from_dict] succeeds exactly on dicts.  A missing key gives a
    [None] attribute, the keys [webUrl] and [parentProjectId] feed [web_url]
    and [parent_project_id], the dict itself is kept as [_data_dict], and the
    connection is the explicit one if given, else the one of the query set. *)
Theorem from_dict_reads_optional_keys
    (d : PyVal) (qs : option QuerySet.t) (tc : option TeamCity.t) :
  (is_dict d = false -> Project.from_dict d qs tc = Raise AttributeError)
  /\ (forall fields, d = PyDict fields ->
      let field key := match dict_lookup key fields with Some x => x | None => PyNone end in
      Project.from_dict d qs tc
      = Ok (Project.mk (field "id") (field "name") (field "description") (field "href")
              (field "webUrl") (field "parentProjectId")
              (match tc with
               | Some t => Some t
               | None => option_map QuerySet.teamcity qs
               end)
              d)).
Proof.
  split.
  - destruct d; try reflexivity. discriminate.
  - intros fields ->. cbn. unfold Project.__init__.
    destruct tc as [t|], qs as [q|]; reflexivity.
Qed.

Lemma from_dict_reads_optional_keys_witness :
  Project.from_dict (PyList []) None None = Raise AttributeError
  /\ Project.from_dict (PyDict [("webUrl", PyStr "w")]) None None
     = Ok (Project.mk PyNone PyNone PyNone PyNone (PyStr "w") PyNone None
             (PyDict [("webUrl", PyStr "w")])).
Proof.
  split.
  - exact (proj1 (from_dict_reads_optional_keys (PyList []) None None) eq_refl).
  - exact (proj2 (from_dict_reads_optional_keys (PyDict [("webUrl", PyStr "w")]) None None)
             _ eq_refl).
Defined.

(** [Project.projects] gives a query set of the collection endpoint whose
    payload is the nested [projects] value: when that value is truthy,
    [len] reads its [count] without any request; when it is falsy (an empty
    dict, say) the query set counts as unfetched and [len] requests the
    whole collection.  Without the key the property raises [KeyError],
    without a back-reference [AttributeError]. *)
Theorem sub_projects_start_from_nested_payload
    (owner : QuerySet.t) (p : Project.t) (log : list string) :
  ProjectLinks.projects None p = Raise AttributeError
  /\ (forall fields, Project._data_dict p = PyDict fields ->
        dict_lookup "projects" fields = None ->
        ProjectLinks.projects (Some owner) p = Raise (KeyError "projects"))
  /\ (forall nested, subscript (Project._data_dict p) "projects" = Ok nested ->
        let sub := with_data_dict (ProjectQuerySet.__init__ (teamcity owner)) nested in
        ProjectLinks.projects (Some owner) p = Ok sub
        /\ (truthy nested = true ->
            __len__ (mkState sub log) = (subscript nested "count", mkState sub log))
        /\ (truthy nested = false ->
            requests (snd (__len__ (mkState sub log)))
            = (log ++ [(TeamCity.base_url (teamcity owner) ++ "/app/rest/projects/")%string])%list)).
Proof.
  split; [reflexivity|]. split.
  - intros fields D L. unfold ProjectLinks.projects, subscript. now rewrite D, L.
  - intros nested S sub. unfold ProjectLinks.projects. rewrite S.
    split; [reflexivity|]. split; intro T.
    + unfold __len__, bind, lift. now rewrite data_run_cached by exact T.
    + unfold __len__. rewrite bind_lift_state.
      exact (proj1 (data_state_unfetched false None (mkState sub log) T)).
Qed.

Lemma sub_projects_start_from_nested_payload_witness :
  let s := Samples.serving Samples.two_projects in
  let owner := self (Samples.fresh s) in
  let parent := Project.mk (PyStr "P") PyNone PyNone PyNone PyNone PyNone
                  (Some (Samples.guest s)) Samples.parent_detail in
  exists sub,
    ProjectLinks.projects (Some owner) parent = Ok sub
    /\ __len__ (mkState sub []) = (Ok (PyInt 1), mkState sub []).
Proof.
  intros s owner parent.
  destruct (proj2 (proj2 (sub_projects_start_from_nested_payload owner parent []))
              (PyDict [("count", PyInt 1); ("project", PyList [PyDict [("id", PyStr "C")]])])
              eq_refl) as (H1 & H2 & _).
  eexists. split; [exact H1 | exact (H2 eq_refl)].
Defined.

(** [Manager.all] hands out a query set without predicates and without
    payload on the manager's connection: its first [len] requests the bare
    collection URL, and [filter(id=x)] followed by [get()] on it requests the
    collection URL followed by [id:x]. *)
Theorem manager_all_is_unfetched (tc : TeamCity.t) (log : list string) (x : string) :
  let q := Manager.all (Manager.projects tc) in
  let base := TeamCity.base_url tc ++ "/app/rest/projects/" in
  teamcity q = tc
  /\ base_url q = base
  /\ truthy (_data_dict q) = false
  /\ requests (snd (len (mkState q log))) = (log ++ [base])%list
  /\ requests (snd (Scenarios.filter_id_then_get x (mkState q log)))
     = (log ++ [(base ++ "id:" ++ x)%string])%list
  /\ fst (ProjectQuerySet.get true false (ProjectQuerySet.mkCriteria (Some x) None)
            (mkState q log))
     = Ok (inl (base ++ "id:" ++ x)).
Proof.
  intros q base. repeat (split; [reflexivity|]). split; [|split].
  - rewrite len_state.
    exact (proj1 (data_state_unfetched false None (mkState q log) eq_refl)).
  - rewrite filter_id_then_get_run. destruct (response_outcome _); reflexivity.
  - rewrite get_run_unchecked. cbn [fst self]. rewrite url_for_details. reflexivity.
Qed.

End Entities.

Section Connection.

Import QuerySet.

Lemma connection_base_url (u p : option string) (protocol server : string)
    (port : option Z) (s : Session.t) :
  let tc := TeamCity.__init__ u p protocol server port s in
  let dflt := if (protocol =? "https")%string then 443 else 80 in
  let port' := match port with
               | Some x => if x =? 0 then dflt else x
               | None => dflt
               end in
  let u0 := protocol ++ "://" ++ server in
  let u1 := if (protocol =? "http")%string && negb (port' =? 80)
            then u0 ++ ":" ++ string_of_Z port' else u0 in
  let u2 := if (protocol =? "https")%string && negb (port' =? 443)
            then u1 ++ ":" ++ string_of_Z port' else u1 in
  TeamCity.port tc = port' /\ TeamCity.base_base_url tc = u2
  /\ TeamCity.base_url tc
     = u2 ++ (if TeamCity.opt_truthy u && TeamCity.opt_truthy p
              then "/httpAuth" else "/guestAuth")
  /\ (TeamCity.auth tc = None <-> TeamCity.opt_truthy u && TeamCity.opt_truthy p = false).
Proof.
  cbv zeta. unfold TeamCity.__init__.
  destruct (TeamCity.opt_truthy u && TeamCity.opt_truthy p) eqn:C; cbn.
  - repeat split; try discriminate.
    destruct u as [u'|]; [|discriminate C]. destruct p as [p'|]; [discriminate|].
    cbn in C. now rewrite andb_false_r in C.
  - repeat split; reflexivity.
Qed.

(** How [TeamCity.__init__] writes the port into the URLs: a port left out,
    given as 0, or equal to the default of [http] (80) or [https] (443) does
    not appear; any other port of an [http] or [https] connection is
    appended; for any other protocol the port is never part of the URL.
    [base_url] adds [/httpAuth] only when user name and password are both
    non-empty, else [/guestAuth]. *)
Theorem connection_urls (u p : option string) (protocol server : string)
    (port : option Z) (s : Session.t) :
  let tc := TeamCity.__init__ u p protocol server port s in
  let plain := protocol ++ "://" ++ server in
  (forall dflt,
     (protocol = "http" /\ dflt = 80) \/ (protocol = "https" /\ dflt = 443) ->
     port = None \/ port = Some 0 \/ port = Some dflt ->
     TeamCity.port tc = dflt /\ TeamCity.base_base_url tc = plain)
  /\ (forall dflt x,
        (protocol = "http" /\ dflt = 80) \/ (protocol = "https" /\ dflt = 443) ->
        port = Some x -> x <> 0 -> x <> dflt ->
        TeamCity.port tc = x
        /\ TeamCity.base_base_url tc = plain ++ ":" ++ string_of_Z x)
  /\ (protocol <> "http" -> protocol <> "https" -> TeamCity.base_base_url tc = plain)
  /\ TeamCity.base_url tc
     = TeamCity.base_base_url tc
       ++ (if TeamCity.opt_truthy u && TeamCity.opt_truthy p
           then "/httpAuth" else "/guestAuth")
  /\ (TeamCity.opt_truthy u = false \/ TeamCity.opt_truthy p = false ->
      TeamCity.auth tc = None
      /\ TeamCity.base_url tc = TeamCity.base_base_url tc ++ "/guestAuth").
Proof.
  intros tc plain.
  destruct (connection_base_url u p protocol server port s) as (Hp & Hb & Hu & Ha).
  fold tc in Hp, Hb, Hu, Ha.
  split; [|split; [|split; [|split]]].
  - intros dflt Hproto Hport. rewrite Hp, Hb.
    destruct Hproto as [[-> ->]|[-> ->]];
      destruct Hport as [->|[->| ->]]; cbn; split; reflexivity.
  - intros dflt x Hproto -> Hx0 Hxd. rewrite Hp, Hb.
    apply Z.eqb_neq in Hx0.
    destruct Hproto as [[-> ->]|[-> ->]]; apply Z.eqb_neq in Hxd;
      cbn [String.eqb Ascii.eqb Bool.eqb andb]; rewrite Hx0; cbn [negb andb];
      rewrite Hxd; cbn [negb]; split; reflexivity.
  - intros Hh Hs. rewrite Hb.
    apply String.eqb_neq in Hh. apply String.eqb_neq in Hs. rewrite Hh, Hs. reflexivity.
  - rewrite Hu, Hb. reflexivity.
  - intro H.
    assert (C : TeamCity.opt_truthy u && TeamCity.opt_truthy p = false).
    { destruct H as [H|H]; rewrite H; [reflexivity | apply andb_false_r]. }
    split; [now apply Ha|]. rewrite Hu, Hb, C. reflexivity.
Qed.

Lemma connection_urls_witness :
  TeamCity.base_base_url
    (TeamCity.__init__ None None "https" "tc" (Some 443) (Samples.serving PyNone))
  = "https://tc"
  /\ TeamCity.base_base_url
       (TeamCity.__init__ None None "https" "tc" (Some 8443) (Samples.serving PyNone))
     = "https://tc:8443"
  /\ TeamCity.base_base_url
       (TeamCity.__init__ None None "ftp" "tc" (Some 21) (Samples.serving PyNone))
     = "ftp://tc"
  /\ TeamCity.base_url
       (TeamCity.__init__ (Some "u") (Some EmptyString) "http" "tc" None
          (Samples.serving PyNone))
     = "http://tc/guestAuth".
Proof.
  split; [|split; [|split]].
  - refine (proj2 (proj1 (connection_urls None None "https" "tc" (Some 443)
                            (Samples.serving PyNone)) 443 _ _)).
    + right. split; reflexivity.
    + right. right. reflexivity.
  - refine (proj2 (proj1 (proj2 (connection_urls None None "https" "tc" (Some 8443)
                                   (Samples.serving PyNone))) 443 8443 _ eq_refl _ _)).
    + right. split; reflexivity.
    + lia.
    + lia.
  - refine (proj1 (proj2 (proj2 (connection_urls None None "ftp" "tc" (Some 21)
                                   (Samples.serving PyNone)))) _ _); discriminate.
  - refine (proj2 (proj2 (proj2 (proj2 (proj2
             (connection_urls (Some "u") (Some EmptyString) "http" "tc" None
                (Samples.serving PyNone))))) _)).
    right. reflexivity.
Defined.

Lemma append_cancel_l (a b c : string) : a ++ b = a ++ c -> b = c.
Proof.
  induction a as [|x a IH]; cbn; [trivial|]. intro E. inversion E. now apply IH.
Qed.

(** Without an href the URL always starts with the base path, and the detail
    form and the collection form are the same URL exactly when the locator
    renders to the empty string; [_get_url] itself changes nothing. *)
Theorem detail_and_collection_urls (q : QuerySet.t) (log : list string) :
  (exists rest, fst (_get_url true None (mkState q log)) = Ok (base_url q ++ rest))
  /\ (exists rest, fst (_get_url false None (mkState q log)) = Ok (base_url q ++ rest))
  /\ (fst (_get_url true None (mkState q log)) = fst (_get_url false None (mkState q log))
      <-> Locator.render (_locator q) = EmptyString)
  /\ (forall details href,
        snd (_get_url details href (mkState q log)) = mkState q log).
Proof.
  rewrite !get_url_run. cbn [fst snd self]. unfold url_for.
  destruct (str_truthy (Locator.render (_locator q))) eqn:T.
  - split; [eexists; reflexivity|]. split; [eexists; reflexivity|]. split.
    + split.
      * intro E. inversion E as [E']. apply append_cancel_l in E'.
        apply (f_equal String.length) in E'. cbn in E'. lia.
      * intro E. apply str_truthy_false in E. congruence.
    + intros details href. now rewrite get_url_run.
  - split; [exists EmptyString; now rewrite append_empty_r|].
    split; [exists EmptyString; now rewrite append_empty_r|]. split.
    + split; [intros _; now apply str_truthy_false | reflexivity].
    + intros details href. now rewrite get_url_run.
Qed.

End Connection.

(** ** Slices *)

Example slice_of_ragged_projects :
  fst (ProjectQuerySet.getitem_slice (Some 0) (Some 1) None
         (Samples.fresh (Samples.serving Samples.ragged_projects)))
  = Ok [Project.mk (PyStr "A") PyNone PyNone PyNone PyNone PyNone
          (Some (Samples.guest (Samples.serving Samples.ragged_projects)))
          (PyDict [("id", PyStr "A")])].
Proof. reflexivity. Qed.

Example slice_with_step :
  QuerySet.islice_walk [Ok 0; Ok 1; Ok 2; Ok 3; Ok 4; Raise TypeError]
    0%nat 1%nat (Some 5%nat) 2%nat
  = Ok [1; 3].
Proof. reflexivity. Qed.

Section Slices.

Import QuerySet.

Lemma forallb_firstn_split {A} (P : A -> bool) (a : nat) :
  forall (ds : list A) (b : nat), (a <= b)%nat ->
    forallb P (firstn b ds) = true ->
    forallb P (firstn a ds) = true /\ forallb P (firstn (b - a) (skipn a ds)) = true.
Proof.
  induction a as [|a IH]; intros ds b Hab H.
  - rewrite Nat.sub_0_r. split; [reflexivity | exact H].
  - destruct b as [|b]; [lia|].
    destruct ds as [|d ds]; [cbn [skipn]; now rewrite !firstn_nil|].
    cbn [firstn forallb] in H. apply andb_true_iff in H as [Hd H].
    destruct (IH ds b ltac:(lia) H) as [H1 H2].
    cbn [firstn forallb skipn Nat.sub]. rewrite Hd. split; [exact H1 | exact H2].
Qed.

Lemma walk_skip (q : QuerySet.t) (stop : option nat) (step k : nat) :
  forall (ds : list PyVal) (c : nat),
    forallb is_dict (firstn k ds) = true ->
    islice_walk (map (fun x => ProjectQuerySet.entity_from_dict x q) ds) c (c + k) stop step
    = islice_walk (map (fun x => ProjectQuerySet.entity_from_dict x q) (skipn k ds))
        (c + k) (c + k) stop step.
Proof.
  induction k as [|k IH]; intros ds c H.
  - now rewrite Nat.add_0_r.
  - destruct ds as [|d ds]; [reflexivity|].
    cbn [firstn forallb] in H. apply andb_true_iff in H as [Hd H].
    destruct d; try discriminate Hd.
    destruct (entity_from_dict_ok fields q) as [p Fp].
    cbn [map islice_walk skipn]. rewrite Fp.
    replace (c <? c + S k)%nat with true by (symmetry; apply Nat.ltb_lt; lia).
    replace (c + S k)%nat with (S c + k)%nat by lia.
    apply IH, H.
Qed.

Lemma walk_yield (q : QuerySet.t) (stop : option nat) :
  forall (ds : list PyVal) (c : nat),
    let wanted := match stop with Some s => firstn (s - c) ds | None => ds end in
    forallb is_dict wanted = true ->
    exists ps,
      islice_walk (map (fun x => ProjectQuerySet.entity_from_dict x q) ds) c c stop 1 = Ok ps
      /\ map Project._data_dict ps = wanted.
Proof.
  induction ds as [|d ds IH]; intros c wanted H.
  - exists []. split; [reflexivity|]. subst wanted. destruct stop; [now rewrite firstn_nil|reflexivity].
  - cbn [map islice_walk]. rewrite Nat.ltb_irrefl.
    destruct stop as [s|].
    + destruct (Nat.leb_spec s c) as [Hs|Hs].
      * exists []. split; [reflexivity|]. subst wanted.
        replace (s - c)%nat with 0%nat by lia. reflexivity.
      * subst wanted. replace (s - c)%nat with (S (s - S c)) in * by lia.
        cbn [firstn forallb] in H. apply andb_true_iff in H as [Hd H].
        destruct d; try discriminate Hd.
        destruct (entity_from_dict_ok fields q) as [p Fp]. rewrite Fp.
        replace (Nat.min (c + 1) s) with (S c) by lia.
        destruct (IH (S c) H) as (ps & E & M). rewrite E.
        exists (p :: ps). split; [reflexivity|]. cbn [map firstn].
        apply entity_from_dict_payload in Fp as (Fd & _). now rewrite Fd, M.
    + subst wanted. cbn [forallb] in H. apply andb_true_iff in H as [Hd H].
      destruct d; try discriminate Hd.
      destruct (entity_from_dict_ok fields q) as [p Fp]. rewrite Fp.
      replace (c + 1)%nat with (S c) by lia.
      destruct (IH (S c) H) as (ps & E & M). rewrite E.
      exists (p :: ps). split; [reflexivity|]. cbn [map].
      apply entity_from_dict_payload in Fp as (Fd & _). now rewrite Fd, M.
Qed.

(** A slice [start:stop] without step gives the entities of the items from
    [start] up to, not including, [stop], in order; only the items before
    [stop] are looked at, so they alone have to be dicts.  Without [stop]
    the rest of the list is returned and every item has to be a dict. *)
Theorem slice_returns_the_range (st st1 : State) (d : PyVal) (ds : list PyVal)
    (start stop : option Z)
    (Hdata : _data false None st = (Ok d, st1))
    (Hlist : subscript d "project" = Ok (PyList ds)) :
  let a := match start with Some x => Z.to_nat x | None => 0%nat end in
  let wanted := match stop with
                | Some b => firstn (Z.to_nat b - a) (skipn a ds)
                | None => skipn a ds
                end in
  let looked_at := match stop with
                   | Some b => firstn (Nat.max a (Z.to_nat b)) ds
                   | None => ds
                   end in
  islice_accepts start stop None = true ->
  forallb is_dict looked_at = true ->
  exists ps,
    ProjectQuerySet.getitem_slice start stop None st = (Ok ps, st1)
    /\ map Project._data_dict ps = wanted.
Proof.
  intros a wanted looked_at Hacc Hd.
  unfold ProjectQuerySet.getitem_slice, QuerySet.getitem_slice. rewrite Hacc.
  unfold bind, lift. rewrite (iter_run _ _ _ _ Hdata Hlist). fold a.
  assert (Ha : forallb is_dict (firstn a ds) = true
               /\ forallb is_dict wanted = true).
  { subst wanted looked_at. destruct stop as [b|].
    - destruct (Nat.le_ge_cases a (Z.to_nat b)) as [L|L].
      + rewrite Nat.max_r in Hd by exact L. now apply forallb_firstn_split.
      + rewrite Nat.max_l in Hd by exact L. split; [exact Hd|].
        replace (Z.to_nat b - a)%nat with 0%nat by lia. reflexivity.
    - split.
      + rewrite forallb_forall in *. intros x Hx. apply Hd.
        rewrite <- (firstn_skipn a ds). apply in_or_app. now left.
      + rewrite forallb_forall in *. intros x Hx. apply Hd.
        rewrite <- (firstn_skipn a ds). apply in_or_app. now right. }
  destruct Ha as [Hpre Hwant].
  pose proof (walk_skip (self st1)
                (match stop with Some b => Some (Z.to_nat b) | None => None end)
                1 a ds 0 Hpre) as W.
  cbn [Nat.add] in W. rewrite W.
  destruct (walk_yield (self st1)
              (match stop with Some b => Some (Z.to_nat b) | None => None end)
              (skipn a ds) a) as (ps & E & M).
  { destruct stop; exact Hwant. }
  exists ps. rewrite E. split; [reflexivity|].
  rewrite M. subst wanted. destruct stop; reflexivity.
Qed.

Lemma slice_returns_the_range_witness :
  exists ps,
    ProjectQuerySet.getitem_slice (Some 0) (Some 1) None
      (Samples.fresh (Samples.serving Samples.ragged_projects))
    = (Ok ps, snd (_data false None (Samples.fresh (Samples.serving Samples.ragged_projects))))
    /\ map Project._data_dict ps = [PyDict [("id", PyStr "A")]].
Proof.
  exact (slice_returns_the_range
           (Samples.fresh (Samples.serving Samples.ragged_projects)) _
           Samples.ragged_projects _ (Some 0) (Some 1) eq_refl eq_refl eq_refl eq_refl).
Defined.

(** A slice with a negative bound or a step below 1 is refused with
    [ValueError] before anything is fetched; in particular a slice cannot
    count from the end. *)
Theorem slice_refuses_negative_bounds (start stop step : option Z) (st : State)
    (H : (exists a, start = Some a /\ a < 0) \/ (exists b, stop = Some b /\ b < 0)
         \/ (exists c, step = Some c /\ c < 1)) :
  ProjectQuerySet.getitem_slice start stop step st = (Raise ValueError, st).
Proof.
  unfold ProjectQuerySet.getitem_slice, QuerySet.getitem_slice.
  replace (islice_accepts start stop step) with false; [reflexivity|].
  symmetry. unfold islice_accepts.
  destruct H as [(a & -> & Ha)|[(b & -> & Hb)|(c & -> & Hc)]].
  - replace (0 <=? a) with false by (symmetry; apply Z.leb_gt; lia). reflexivity.
  - replace (0 <=? b) with false by (symmetry; apply Z.leb_gt; lia).
    cbn [andb]. now rewrite andb_false_r.
  - replace (1 <=? c) with false by (symmetry; apply Z.leb_gt; lia).
    cbn [andb]. now rewrite andb_false_r.
Qed.

Lemma slice_refuses_negative_bounds_witness :
  ProjectQuerySet.getitem_slice (Some (-1)) None None
    (Samples.fresh (Samples.serving Samples.two_projects))
  = (Raise ValueError, Samples.fresh (Samples.serving Samples.two_projects)).
Proof.
  apply slice_refuses_negative_bounds. left. exists (-1). split; [reflexivity | lia].
Defined.

End Slices.
